(** * mcp-npm_docs-server: the cache-backed fetch orchestrator

    A shallow embedding of [CacheService] (services/CacheService.ts) and
    [NpmDocService] (services/NpmDocService.ts), with the configuration
    record of [ConfigurationManager] and the types of types/npmDocsTypes.ts.

    Conventions of the embedding.
    - A JavaScript string is a [string] holding its UTF-8 bytes.
    - Numbers that the code uses as integers (timestamps in milliseconds,
      TTLs in seconds, HTTP status codes) are in [Z].
    - An optional property ([x?: T]) is an [option]; an absent property and
      a property holding [undefined] are the same [None].
    - An [async] function is a computation in the monad [M]: it takes the
      world (the SQLite table, the clock, the upstream registry, the faults
      the storage engine is about to raise) and gives back what it returned
      or what it threw, with the world it left behind.
    - The calls to [logger] only write to the console and are left out.
    - The table [npm_docs_cache] is written by [set] only, so that a payload
      which [JSON.parse] accepts is the text of a documentation record. *)

From Stdlib Require Import ZArith Ascii String List Lia.
From stdpp Require Import base option strings pretty gmap.

Local Open Scope string_scope.
Local Open Scope Z_scope.

(** ** types/npmDocsTypes.ts *)

(** [author?: string | { name?, email?, url? }] *)
Inductive Author : Type :=
| AuthorString (s : string)
| AuthorObject (name email url : option string).

Record NpmDocumentation : Type := mkNpmDocumentation {
  name : string;
  version : string;
  description : string;
  homepage : option string;
  repository : option string;
  author : option Author;
  license : option string;
  main : option string;
  keywords : option (list string);
  dependencies : option (list (string * string));
  devDependencies : option (list (string * string));
  readme : option string;
  readmeContent : option string
}.

Record NpmDocServiceConfig : Type := mkConfig {
  cacheTtl : Z;
  dbPath : string;
  npmRegistry : string
}.

(** The classes of thrown values.  The first four are the classes of
    npmDocsTypes.ts and the built-in [Error]; the others are what the
    libraries throw: better-sqlite3 on a failing statement,
    [Date.prototype.toISOString] on an invalid date, and axios on a failed
    request (with the [status] and [statusText] of the response it got, if
    any, and whether a request was sent). *)
Inductive Exn : Type :=
| CacheError (message : string)
| NetworkError (message : string)
| NotFoundError (message : string)
| Error (message : string)
| SqliteError (message : string)
| RangeError (message : string)
| AxiosError (response : option (Z * string)) (request : bool) (message : string).

Definition exn_message (e : Exn) : string :=
  match e with
  | CacheError m | NetworkError m | NotFoundError m
  | Error m | SqliteError m | RangeError m | AxiosError _ _ m => m
  end.

(** ** JavaScript dates

    A [Date] holds a time value in milliseconds, or is an invalid date when
    the number it was built from lies outside of +-8.64e15 (TimeClip). *)
Module JsDate.

(** A number that may be [NaN]. *)
Definition Num : Type := option Z.

Definition t : Type := option Z.

Definition max_time : Z := 8640000000000000.

Definition new_Date (n : Num) : t :=
  match n with
  | Some v => if (Z.abs v <=? max_time) then Some v else None
  | None => None
  end.

Definition getTime (d : t) : Num := d.

Definition add (a b : Num) : Num :=
  match a, b with
  | Some x, Some y => Some (x + y)
  | _, _ => None
  end.

(** [a < b] on dates: the comparison of the time values, false when one of
    them is [NaN]. *)
Definition lt (a b : t) : bool :=
  match a, b with
  | Some x, Some y => x <? y
  | _, _ => false
  end.

(** [toISOString] throws a [RangeError] on an invalid date.  The text it
    returns otherwise only reaches the log. *)
Definition toISOString (d : t) : Exn + unit :=
  match d with
  | Some _ => inr tt
  | None => inl (RangeError "Invalid time value")
  end.

End JsDate.

Record CacheEntry : Type := mkCacheEntry {
  packageName : string;
  documentation : NpmDocumentation;
  fetchedAt : JsDate.t;
  ttl : Z
}.

(** ** The upstream registry, as axios shows it *)

(** [NpmsIOResponse.collected.metadata].  The interface declares [name] and
    [version] as strings, and the code guards against their absence. *)
Record Links : Type := mkLinks {
  l_npm : option string;
  l_homepage : option string;
  l_repository : option string;
  l_bugs : option string
}.

Record Metadata : Type := mkMetadata {
  m_name : option string;
  m_version : option string;
  m_description : option string;
  m_keywords : option (list string);
  m_author : option (option string);   (* author?: { name?: string } *)
  m_license : option string;
  m_links : option Links;
  m_dependencies : option (list (string * string));
  m_devDependencies : option (list (string * string));
  m_readme : option string
}.

Record Collected : Type := mkCollected { metadata : option Metadata }.
Record NpmsIOResponse : Type := mkResponse { collected : option Collected }.

Record HttpRequest : Type := mkRequest {
  url : string;
  h_Accept : string;
  h_User_Agent : string;
  timeout : Z
}.

(** What [axios.get] does with a request: it resolves with a response whose
    [data] is the parsed body, or it rejects with an error. *)
Inductive AxiosResult : Type :=
| Resolved (data : option NpmsIOResponse)
| Rejected (error : Exn).

(** ** The world *)

(** A row of [npm_docs_cache]; the primary key [package_name] is the key of
    the table. *)
Record Row : Type := mkRow {
  r_documentation : string;
  r_fetched_at : Z;
  r_ttl : Z
}.

Record World : Type := mkWorld {
  table : gmap string Row;
  (** What the next calls into better-sqlite3 do, one element per call:
      [Some msg] throws; past the end of the list every call succeeds. *)
  faults : list (option string);
  (** The clock: [now] is the next reading, [later] the readings after it. *)
  now : Z;
  later : list Z;
  (** The upstream registry and the requests sent to it, latest first. *)
  upstream : HttpRequest -> AxiosResult;
  requests : list HttpRequest;
  (** [process.env.npm_package_version] *)
  npm_package_version : option string
}.

Definition with_table (tb : gmap string Row) (w : World) : World :=
  mkWorld tb (faults w) (now w) (later w) (upstream w) (requests w)
          (npm_package_version w).

Definition with_faults (fs : list (option string)) (w : World) : World :=
  mkWorld (table w) fs (now w) (later w) (upstream w) (requests w)
          (npm_package_version w).

Definition with_clock (n : Z) (l : list Z) (w : World) : World :=
  mkWorld (table w) (faults w) n l (upstream w) (requests w)
          (npm_package_version w).

Definition with_requests (rs : list HttpRequest) (w : World) : World :=
  mkWorld (table w) (faults w) (now w) (later w) (upstream w) rs
          (npm_package_version w).

(** ** Computations that return or throw *)

Inductive Outcome (A : Type) : Type :=
| Returned (a : A)
| Thrown (e : Exn).
Arguments Returned {A} a.
Arguments Thrown {A} e.

Definition M (A : Type) : Type := World -> Outcome A * World.

Definition ret {A} (a : A) : M A := fun w => (Returned a, w).

Definition throw {A} (e : Exn) : M A := fun w => (Thrown e, w).

Definition bind {A B} (m : M A) (k : A -> M B) : M B :=
  fun w =>
    match m w with
    | (Returned a, w') => k a w'
    | (Thrown e, w') => (Thrown e, w')
    end.

(** [try { m } catch (e) { h e }] *)
Definition try_catch {A} (m : M A) (h : Exn -> M A) : M A :=
  fun w =>
    match m w with
    | (Returned a, w') => (Returned a, w')
    | (Thrown e, w') => h e w'
    end.

Notation "'let*' x ':=' m 'in' k" := (bind m (fun x => k))
  (at level 10, x name, m at level 100, k at level 200).
Notation "m ';;' k" := (bind m (fun _ => k))
  (at level 100, k at level 200, right associativity).

Definition lift {A} (r : Exn + A) : M A :=
  match r with
  | inr a => ret a
  | inl e => throw e
  end.

(** [Date.now()] and [new Date()]: read the clock, which moves on to its
    next reading. *)
Definition Date_now : M Z :=
  fun w =>
    (Returned (now w),
     match later w with
     | [] => w
     | n :: l => with_clock n l w
     end).

(** ** better-sqlite3

    Every call into the library ([db.prepare], [stmt.get], [stmt.run]) takes
    the next element of [faults] and throws when it says so; a statement
    that throws changes nothing. *)
Inductive Statement : Type :=
| SelectByName        (* SELECT ... FROM npm_docs_cache WHERE package_name = ? *)
| InsertOrReplace     (* INSERT OR REPLACE INTO npm_docs_cache ... VALUES (?, ?, ?, ?) *)
| DeleteByName        (* DELETE FROM npm_docs_cache WHERE package_name = ? *)
| DeleteAll.          (* DELETE FROM npm_docs_cache *)

Definition next_fault (w : World) : option string :=
  match faults w with
  | f :: _ => f
  | [] => None
  end.

Definition pop_fault (w : World) : World := with_faults (tail (faults w)) w.

Definition sqlite_read {A} (f : gmap string Row -> A) : M A :=
  fun w =>
    match next_fault w with
    | Some msg => (Thrown (SqliteError msg), pop_fault w)
    | None => (Returned (f (table w)), pop_fault w)
    end.

Definition sqlite_write (f : gmap string Row -> gmap string Row) : M unit :=
  fun w =>
    match next_fault w with
    | Some msg => (Thrown (SqliteError msg), pop_fault w)
    | None => (Returned tt, with_table (f (table w)) (pop_fault w))
    end.

Definition db_prepare (s : Statement) : M Statement :=
  sqlite_read (fun _ => s).

Definition stmt_get (key : string) : M (option Row) :=
  sqlite_read (fun tb => tb !! key).

Definition stmt_run_insert (key : string) (doc : string) (fetched ttl_ : Z) : M unit :=
  sqlite_write (fun tb => <[key := mkRow doc fetched ttl_]> tb).

Definition stmt_run_delete (key : string) : M unit :=
  sqlite_write (fun tb => delete key tb).

Definition stmt_run_delete_all : M unit :=
  sqlite_write (fun _ => ∅).

(** A string is falsy exactly when it is empty. *)
Definition truthy (s : string) : bool :=
  match s with
  | EmptyString => false
  | String _ _ => true
  end.

Definition truthy_opt (o : option string) : bool :=
  match o with
  | Some s => truthy s
  | None => false
  end.

(** ** services/CacheService.ts *)
Section CacheService.

(** [JSON.stringify] and [JSON.parse] on documentation records; [JSON.parse]
    gives [None] where it throws a SyntaxError. *)
Variable JSON_stringify : NpmDocumentation -> string.
Variable JSON_parse : string -> option NpmDocumentation.

(** [clearCache(packageName?)]: one entry, or all of them when no name is
    given; an empty name is falsy and counts as none. *)
Definition clearCache (packageName_ : option string) : M unit :=
  try_catch
    (if truthy_opt packageName_ then
       let* _ := db_prepare DeleteByName in
       stmt_run_delete (default EmptyString packageName_)
     else
       let* _ := db_prepare DeleteAll in
       stmt_run_delete_all)
    (fun error =>
       throw (CacheError ("Cache clear operation failed: " +:+ exn_message error))).

(** The row that the statement selects has the name it was asked for, and
    that name is the [packageName] of the entry. *)
Definition get (packageName_ : string) : M (option CacheEntry) :=
  try_catch
    (let* _ := db_prepare SelectByName in
     let* row := stmt_get packageName_ in
     match row with
     | None => ret None
     | Some row =>
         match JSON_parse (r_documentation row) with
         | None =>
             (* catch (parseError): remove the corrupted entry, miss *)
             try_catch (clearCache (Some packageName_)) (fun _ => ret tt) ;;
             ret None
         | Some documentation_ =>
             ret (Some (mkCacheEntry packageName_ documentation_
                          (JsDate.new_Date (Some (r_fetched_at row)))
                          (r_ttl row)))
         end
     end)
    (fun _ => ret None).

Definition set (packageName_ : string) (documentation_ : NpmDocumentation)
    (ttl_ : Z) : M unit :=
  try_catch
    (let* _ := db_prepare InsertOrReplace in
     let* now_ := Date_now in
     let documentationString := JSON_stringify documentation_ in
     stmt_run_insert packageName_ documentationString now_ ttl_)
    (fun error =>
       throw (CacheError ("Cache update failed for " +:+ packageName_ +:+ ": "
                          +:+ exn_message error))).

(** [new Date(fetchedAt.getTime() + (ttl * 1000))] *)
Definition expiryTime (e : CacheEntry) : JsDate.t :=
  JsDate.new_Date (JsDate.add (JsDate.getTime (fetchedAt e)) (Some (ttl e * 1000))).

Definition isCached (packageName_ : string) : M bool :=
  try_catch
    (let* cacheEntry := get packageName_ in
     match cacheEntry with
     | None => ret false
     | Some cacheEntry =>
         let* now_ := Date_now in
         let isValid := JsDate.lt (Some now_) (expiryTime cacheEntry) in
         (* the debug line formats both dates *)
         lift (JsDate.toISOString (fetchedAt cacheEntry)) ;;
         lift (JsDate.toISOString (expiryTime cacheEntry)) ;;
         ret isValid
     end)
    (fun _ => ret false).

End CacheService.

(** ** config/ConfigurationManager.ts *)

Record Env : Type := mkEnv {
  NPM_CACHE_TTL : option string;
  NPM_CACHE_DB_PATH : option string;
  NPM_REGISTRY_URL : option string
}.

Definition is_digit (c : ascii) : bool :=
  ((48 <=? N_of_ascii c) && (N_of_ascii c <=? 57))%N.

Definition is_space (c : ascii) : bool :=
  let n := N_of_ascii c in
  ((n =? 32) || ((9 <=? n) && (n <=? 13)))%N.

Fixpoint skip_spaces (s : string) : string :=
  match s with
  | String c s' => if is_space c then skip_spaces s' else s
  | EmptyString => s
  end.

(** The digits at the head of [s], read in base ten after [acc]; [None]
    when there is none. *)
Fixpoint digits (s : string) (acc : option Z) : option Z :=
  match s with
  | String c s' =>
      if is_digit c
      then digits s' (Some (10 * default 0 acc + (Z.of_N (N_of_ascii c) - 48)))
      else acc
  | EmptyString => acc
  end.

(** [parseInt(s, 10)]; [None] is [NaN]. *)
Definition parseInt (s : string) : option Z :=
  match skip_spaces s with
  | String "-" s' => Z.opp <$> digits s' None
  | String "+" s' => digits s' None
  | s' => digits s' None
  end.

(** The defaults of the constructor; the default database path is resolved
    from the location of the compiled file. *)
Definition defaultConfig (defaultDbPath : string) : NpmDocServiceConfig :=
  mkConfig 86400 defaultDbPath "https://registry.npmjs.org".

Definition loadEnvironmentOverrides (env : Env) (c : NpmDocServiceConfig)
    : NpmDocServiceConfig :=
  let c1 :=
    if truthy_opt (NPM_CACHE_TTL env) then
      match parseInt (default EmptyString (NPM_CACHE_TTL env)) with
      | Some ttl_ => if 0 <? ttl_ then mkConfig ttl_ (dbPath c) (npmRegistry c) else c
      | None => c
      end
    else c in
  let c2 :=
    if truthy_opt (NPM_CACHE_DB_PATH env)
    then mkConfig (cacheTtl c1) (default EmptyString (NPM_CACHE_DB_PATH env)) (npmRegistry c1)
    else c1 in
  if truthy_opt (NPM_REGISTRY_URL env)
  then mkConfig (cacheTtl c2) (dbPath c2) (default EmptyString (NPM_REGISTRY_URL env))
  else c2.

(** [Partial<NpmDocServiceConfig>] and the spread [{ ...c, ...update }]
    of the properties that [update] has. *)
Record PartialConfig : Type := mkPartial {
  p_cacheTtl : option Z;
  p_dbPath : option string;
  p_npmRegistry : option string
}.

Definition spread (c : NpmDocServiceConfig) (update : PartialConfig)
    : NpmDocServiceConfig :=
  mkConfig (default (cacheTtl c) (p_cacheTtl update))
           (default (dbPath c) (p_dbPath update))
           (default (npmRegistry c) (p_npmRegistry update)).

Definition updateNpmDocServiceConfig (c : NpmDocServiceConfig)
    (update : PartialConfig) : NpmDocServiceConfig :=
  spread c update.

(** The configuration that [getNpmDocServiceConfig] hands out after the
    singleton was built. *)
Definition getNpmDocServiceConfig (defaultDbPath : string) (env : Env)
    : NpmDocServiceConfig :=
  loadEnvironmentOverrides env (defaultConfig defaultDbPath).

(** ** [encodeURIComponent]

    Every byte of the UTF-8 text is kept when it is one of
    [A-Z a-z 0-9 - _ . ! ~ * ' ( )] and written as [%XX] otherwise. *)
Definition unreserved (c : ascii) : bool :=
  let n := N_of_ascii c in
  (((65 <=? n) && (n <=? 90)) || ((97 <=? n) && (n <=? 122))
   || ((48 <=? n) && (n <=? 57))
   || (n =? 45) || (n =? 95) || (n =? 46) || (n =? 33) || (n =? 126)
   || (n =? 42) || (n =? 39) || (n =? 40) || (n =? 41))%N.

Definition hex_digit (n : N) : ascii :=
  if (n <? 10)%N then ascii_of_N (48 + n) else ascii_of_N (55 + n).

Fixpoint encodeURIComponent (s : string) : string :=
  match s with
  | EmptyString => EmptyString
  | String c s' =>
      if unreserved c then String c (encodeURIComponent s')
      else
        let n := N_of_ascii c in
        String "%" (String (hex_digit (n / 16)) (String (hex_digit (n mod 16))
          (encodeURIComponent s')))
  end.

(** ** services/NpmDocService.ts *)

Record NpmDocService : Type := mkService {
  config : NpmDocServiceConfig;
  npmsApiBaseUrl : string
}.

(** The constructor: the configuration is the manager's with the overrides
    of the caller spread over it; the base URL of npms.io is a field
    initialiser. *)
Definition new_NpmDocService (managed : NpmDocServiceConfig)
    (overrides : option PartialConfig) : NpmDocService :=
  mkService (spread managed (default (mkPartial None None None) overrides))
            "https://api.npms.io/v2".

(** [a || b] on an optional string *)
Definition or_else (a : option string) (b : string) : string :=
  if truthy_opt a then default b a else b.

(** [axios.get(url, { headers, timeout })]: the request goes out and the
    registry answers. *)
Definition axios_get (req : HttpRequest) : M (option NpmsIOResponse) :=
  fun w =>
    let w' := with_requests (req :: requests w) w in
    match upstream w req with
    | Resolved data => (Returned data, w')
    | Rejected error => (Thrown error, w')
    end.

Definition normalize (md : Metadata) : NpmDocumentation :=
  {| name := default EmptyString (m_name md);
     version := or_else (m_version md) "unknown";
     description := or_else (m_description md) EmptyString;
     homepage := m_links md ≫= l_homepage;
     repository := m_links md ≫= l_repository;
     author := AuthorString <$> (m_author md ≫= id);
     license := m_license md;
     main := None;
     keywords := m_keywords md;
     dependencies := m_dependencies md;
     devDependencies := m_devDependencies md;
     readme := if truthy_opt (m_readme md)
               then Some "README content included via npms.io" else None;
     readmeContent := m_readme md |}.

(** [process.env.npm_package_version] *)
Definition env_npm_package_version : M (option string) :=
  fun w => (Returned (npm_package_version w), w).

(** The request of [fetchFromNpmsIO]: the URL is the base URL of npms.io
    with the encoded name, the user agent bears the version of the package
    or [0.1.0]. *)
Definition request_for (svc : NpmDocService) (packageName_ : string)
    (pkg_version : option string) : HttpRequest :=
  mkRequest
    (npmsApiBaseUrl svc +:+ "/package/" +:+ encodeURIComponent packageName_)
    "application/json"
    ("mcp-npm_docs-server/" +:+ or_else pkg_version "0.1.0")
    15000.

Definition fetchFromNpmsIO (svc : NpmDocService) (packageName_ : string)
    : M NpmDocumentation :=
  try_catch
    (let* pkg_version := env_npm_package_version in
     let* data := axios_get (request_for svc packageName_ pkg_version) in
     let metadata_ := (data ≫= collected) ≫= metadata in
     match metadata_ with
     | Some md =>
         if truthy_opt (m_name md) then ret (normalize md)
         else throw (NotFoundError
                ("Package '" +:+ packageName_ +:+ "' not found via npms.io."))
     | None =>
         throw (NotFoundError
                ("Package '" +:+ packageName_ +:+ "' not found via npms.io."))
     end)
    (fun error =>
       match error with
       | NotFoundError _ => throw error
       | AxiosError (Some (status, statusText)) _ _ =>
           if status =? 404 then
             throw (NotFoundError ("Package '" +:+ packageName_ +:+ "' not found."))
           else
             throw (NetworkError ("Failed to fetch from npms.io: HTTP "
                                  +:+ pretty (status : Z) +:+ " " +:+ statusText))
       | AxiosError None true message_ =>
           throw (NetworkError ("Network error connecting to npms.io: "
                                +:+ message_))
       | _ =>
           throw (Error ("An unexpected error occurred while fetching from npms.io: "
                         +:+ exn_message error))
       end).

Section NpmDocService.

Variable JSON_stringify : NpmDocumentation -> string.
Variable JSON_parse : string -> option NpmDocumentation.
Variable this : NpmDocService.

(** Step 1 of [getDocumentation], taken when [forceFresh] is false: the
    documentation it returns from the cache, or [None] when it goes on to
    fetch. *)
Definition checkCache (packageName_ : string) : M (option NpmDocumentation) :=
  try_catch
    (let* isCached_ := isCached JSON_parse packageName_ in
     if (isCached_ : bool) then
       let* cacheEntry := get JSON_parse packageName_ in
       match cacheEntry with
       | Some cacheEntry => ret (Some (documentation cacheEntry))
       | None => ret None
       end
     else ret None)
    (fun _ => ret None).

Definition consultCache (packageName_ : string) (forceFresh : bool)
    : M (option NpmDocumentation) :=
  if negb forceFresh then checkCache packageName_ else ret None.

Definition getDocumentation (packageName_ : string) (forceFresh : bool)
    : M NpmDocumentation :=
  let* hit := consultCache packageName_ forceFresh in
  match hit with
  | Some documentation_ => ret documentation_
  | None =>
      let* docs :=
        try_catch (fetchFromNpmsIO this packageName_)
                  (fun fetchError => throw fetchError) in
      try_catch (set JSON_stringify packageName_ docs (cacheTtl (config this)))
                (fun _ => ret tt) ;;
      ret docs
  end.

(** [clearCache] and [isDocCached] hand over to the cache service. *)
Definition NpmDocService_clearCache (packageName_ : option string) : M unit :=
  clearCache packageName_.

Definition isDocCached (packageName_ : string) : M bool :=
  isCached JSON_parse packageName_.

End NpmDocService.

(** ** services/CacheService.ts: the constructor

    [new BetterSqlite3(dbPath, options)] and [db.exec(createTableSQL)] are
    calls into better-sqlite3 like the others.  The statement is CREATE
    TABLE IF NOT EXISTS: the rows that the file holds stay. *)
Definition Database_open (dbPath_ : string) : M unit :=
  sqlite_read (fun _ => tt).

Definition db_exec_create_table : M unit :=
  sqlite_read (fun _ => tt).

Definition initializeDatabase : M unit :=
  try_catch db_exec_create_table
    (fun error =>
       throw (CacheError ("Cache table initialization failed: "
                          +:+ exn_message error))).

Definition new_CacheService (dbPath_ : string) : M unit :=
  try_catch
    (Database_open dbPath_ ;; initializeDatabase)
    (fun error =>
       throw (CacheError ("Cache initialization failed: " +:+ exn_message error))).

(** ** config/ConfigurationManager.ts: the singleton

    The statics of the class: the instance, which is the configuration it
    manages, and the lock.  [getInstance] gives the statics after the call,
    or [None] when it does not return: with the lock taken and no instance
    it waits in [while (instanceLock) { }], and nothing releases the lock. *)
Record ConfigurationManagerStatics : Type := mkStatics {
  instance : option NpmDocServiceConfig;
  instanceLock : bool
}.

Definition ConfigurationManager_getInstance (defaultDbPath : string) (env : Env)
    (st : ConfigurationManagerStatics) : option ConfigurationManagerStatics :=
  match instance st with
  | Some _ => Some st
  | None =>
      if instanceLock st then None
      else
        (* the lock is taken, the instance is built from the defaults and
           the environment, and the lock is released in the finally *)
        Some (mkStatics
                (Some (loadEnvironmentOverrides env (defaultConfig defaultDbPath)))
                false)
  end.

Definition ConfigurationManager_update (update : PartialConfig)
    (st : ConfigurationManagerStatics) : ConfigurationManagerStatics :=
  mkStatics (flip updateNpmDocServiceConfig update <$> instance st) (instanceLock st).

(** ** services/NpmDocService.ts: the constructor with its cache service *)
Definition construct_NpmDocService (managed : NpmDocServiceConfig)
    (overrides : option PartialConfig) : M NpmDocService :=
  let this := new_NpmDocService managed overrides in
  try_catch
    (new_CacheService (dbPath (config this)) ;; ret this)
    (fun error => throw error).

(** ** tools/npmDocsTool.ts, tools/npmDocsToolParams.ts, tools/index.ts *)

Definition TOOL_NAME : string := "getNpmPackageDocs".

Record NpmDocsToolArgs : Type := mkArgs {
  a_packageName : string;
  a_forceFresh : bool
}.

(** The error codes of the MCP SDK. *)
Inductive ErrorCode : Type :=
| ConnectionClosed | RequestTimeout | ParseError | InvalidRequest
| MethodNotFound | InvalidParams | InternalError.

(** [new McpError(code, message)] *)
Record McpError : Type := mkMcpError {
  code : ErrorCode;
  mcp_message : string
}.

Record TextContent : Type := mkText {
  type_ : string;
  text : string
}.

(** The catch block of [processNpmDocsRequest].  Every thrown value of the
    service is an [Error] and none is a [McpError]. *)
Definition toMcpError (packageName_ : string) (error : Exn) : McpError :=
  match error with
  | NotFoundError m => mkMcpError InvalidRequest m
  | NetworkError m => mkMcpError InternalError ("Upstream network error: " +:+ m)
  | CacheError m => mkMcpError InternalError ("Cache interaction failed: " +:+ m)
  | _ =>
      mkMcpError InternalError
        ("Failed to get documentation for '" +:+ packageName_ +:+ "': "
         +:+ exn_message error)
  end.

Section npmDocsTool.

Variable JSON_stringify : NpmDocumentation -> string.
Variable JSON_parse : string -> option NpmDocumentation.
(** [JSON.stringify(documentation, null, 2)] *)
Variable JSON_stringify_pretty : NpmDocumentation -> string.

(** The handler: what it returns ([inl]) or the [McpError] it throws. *)
Definition processNpmDocsRequest (npmDocService : NpmDocService)
    (args : NpmDocsToolArgs) : World -> (list TextContent + McpError) * World :=
  fun w =>
    match getDocumentation JSON_stringify JSON_parse npmDocService
            (a_packageName args) (a_forceFresh args) w with
    | (Returned documentation_, w') =>
        (inl [mkText "text" (JSON_stringify_pretty documentation_)], w')
    | (Thrown error, w') => (inr (toMcpError (a_packageName args) error), w')
    end.

End npmDocsTool.

(** A tool of the server: its name and the service its handler runs on. *)
Record RegisteredTool : Type := mkTool {
  tool_name : string;
  tool_service : NpmDocService
}.

(** [npmDocsTool(server)]: when the service cannot be built the function
    returns before [server.tool]. *)
Definition npmDocsTool (managed : NpmDocServiceConfig) (server : list RegisteredTool)
    : M (list RegisteredTool) :=
  let* built :=
    try_catch
      (let* npmDocService := construct_NpmDocService managed None in
       ret (Some npmDocService))
      (fun _ => ret None) in
  match built with
  | Some npmDocService => ret (mkTool TOOL_NAME npmDocService :: server)
  | None => ret server
  end.

Definition registerTools (managed : NpmDocServiceConfig) (server : list RegisteredTool)
    : M (list RegisteredTool) :=
  npmDocsTool managed server.

(** ** A JSON codec

    The cache service is stated over any [JSON.stringify] and [JSON.parse].
    This is one such pair, for the values a documentation record is made
    of: strings, arrays and objects.  A text that is no JSON, or whose value
    has not the shape of a record, does not parse. *)
Module Json.

#[local] Set Warnings "-register-all".

Inductive value : Type :=
| JString (s : string)
| JArray (l : list value)
| JObject (l : list (string * value)).

Definition dquote : ascii := ascii_of_N 34.
Definition backslash : ascii := ascii_of_N 92.

Definition hex_lower (n : N) : ascii :=
  if (n <? 10)%N then ascii_of_N (48 + n) else ascii_of_N (87 + n).

Fixpoint escape (s : string) : string :=
  match s with
  | EmptyString => EmptyString
  | String c s' =>
      let n := N_of_ascii c in
      if ((n =? 34) || (n =? 92))%N then String backslash (String c (escape s'))
      else if (n =? 10)%N then String backslash (String "n" (escape s'))
      else if (n =? 13)%N then String backslash (String "r" (escape s'))
      else if (n =? 9)%N then String backslash (String "t" (escape s'))
      else if (n <? 32)%N then
        String backslash (String "u" (String "0" (String "0"
          (String (hex_lower (n / 16)) (String (hex_lower (n mod 16)) (escape s'))))))
      else String c (escape s')
  end.

Definition quote (s : string) : string :=
  String dquote (escape s +:+ String dquote EmptyString).

Fixpoint join (sep : string) (l : list string) : string :=
  match l with
  | [] => EmptyString
  | [x] => x
  | x :: l' => x +:+ sep +:+ join sep l'
  end.

Fixpoint print (v : value) : string :=
  match v with
  | JString s => quote s
  | JArray l => "[" +:+ join "," (map print l) +:+ "]"
  | JObject l =>
      "{" +:+ join "," (map (fun kv => quote (fst kv) +:+ ":" +:+ print (snd kv)) l)
      +:+ "}"
  end.

(** *** Reading *)

Definition hex_value (c : ascii) : option N :=
  let n := N_of_ascii c in
  if ((48 <=? n) && (n <=? 57))%N then Some (n - 48)%N
  else if ((97 <=? n) && (n <=? 102))%N then Some (n - 87)%N
  else if ((65 <=? n) && (n <=? 70))%N then Some (n - 55)%N
  else None.

(** The rest of a string literal, after its opening quote: the text it
    denotes and what follows the closing quote. *)
Fixpoint read_string (s : string) : option (string * string) :=
  match s with
  | EmptyString => None
  | String c s' =>
      let n := N_of_ascii c in
      if (n =? 34)%N then Some (EmptyString, s')
      else if (n <? 32)%N then None
      else if (n =? 92)%N then
        match s' with
        | String "u" (String "0" (String "0" (String h (String l s'')))) =>
            match hex_value h, hex_value l, read_string s'' with
            | Some a, Some b, Some (t, rest) =>
                Some (String (ascii_of_N (16 * a + b)) t, rest)
            | _, _, _ => None
            end
        | String e s'' =>
            let en := N_of_ascii e in
            let decoded :=
              if ((en =? 34) || (en =? 92) || (en =? 47))%N then Some e
              else if (en =? 110)%N then Some (ascii_of_N 10)
              else if (en =? 114)%N then Some (ascii_of_N 13)
              else if (en =? 116)%N then Some (ascii_of_N 9)
              else None in
            match decoded, read_string s'' with
            | Some d, Some (t, rest) => Some (String d t, rest)
            | _, _ => None
            end
        | EmptyString => None
        end
      else
        match read_string s' with
        | Some (t, rest) => Some (String c t, rest)
        | None => None
        end
  end.

(** A value at the head of the text, and the members of an array or of an
    object after the first; [fuel] bounds the nesting and the number of
    members, and the length of the text is enough. *)
Fixpoint read_value (fuel : nat) (s : string) : option (value * string) :=
  match fuel with
  | O => None
  | S fuel =>
      let elements :=
        fix elements (n : nat) (s : string) : option (list value * string) :=
          match n with
          | O => None
          | S n =>
              match skip_spaces s with
              | String "]" rest => Some ([], rest)
              | String "," rest =>
                  match read_value fuel rest with
                  | Some (v, rest) =>
                      match elements n rest with
                      | Some (l, rest) => Some (v :: l, rest)
                      | None => None
                      end
                  | None => None
                  end
              | _ => None
              end
          end in
      let member (s : string) : option ((string * value) * string) :=
        match skip_spaces s with
        | String q rest =>
            if (N_of_ascii q =? 34)%N then
              match read_string rest with
              | Some (k, rest) =>
                  match skip_spaces rest with
                  | String ":" rest =>
                      match read_value fuel rest with
                      | Some (v, rest) => Some ((k, v), rest)
                      | None => None
                      end
                  | _ => None
                  end
              | None => None
              end
            else None
        | EmptyString => None
        end in
      let members :=
        fix members (n : nat) (s : string) : option (list (string * value) * string) :=
          match n with
          | O => None
          | S n =>
              match skip_spaces s with
              | String "}" rest => Some ([], rest)
              | String "," rest =>
                  match member rest with
                  | Some (kv, rest) =>
                      match members n rest with
                      | Some (l, rest) => Some (kv :: l, rest)
                      | None => None
                      end
                  | None => None
                  end
              | _ => None
              end
          end in
      match skip_spaces s with
      | String "[" rest =>
          match skip_spaces rest with
          | String "]" rest => Some (JArray [], rest)
          | _ =>
              match read_value fuel rest with
              | Some (v, rest) =>
                  match elements fuel rest with
                  | Some (l, rest) => Some (JArray (v :: l), rest)
                  | None => None
                  end
              | None => None
              end
          end
      | String "{" rest =>
          match skip_spaces rest with
          | String "}" rest => Some (JObject [], rest)
          | _ =>
              match member rest with
              | Some (kv, rest) =>
                  match members fuel rest with
                  | Some (l, rest) => Some (JObject (kv :: l), rest)
                  | None => None
                  end
              | None => None
              end
          end
      | String q rest =>
          if (N_of_ascii q =? 34)%N then
            match read_string rest with
            | Some (t, rest) => Some (JString t, rest)
            | None => None
            end
          else None
      | EmptyString => None
      end
  end.

Definition read (s : string) : option value :=
  match read_value (S (String.length s)) s with
  | Some (v, rest) =>
      match skip_spaces rest with
      | EmptyString => Some v
      | _ => None
      end
  | None => None
  end.

(** *** Documentation records as JSON values *)

Definition field (k : string) (o : option value) : list (string * value) :=
  match o with
  | Some v => [(k, v)]
  | None => []
  end.

Definition of_dict (d : list (string * string)) : value :=
  JObject (map (fun kv => (fst kv, JString (snd kv))) d).

Definition of_author (a : Author) : value :=
  match a with
  | AuthorString s => JString s
  | AuthorObject n e u =>
      JObject (field "name" (JString <$> n) ++ field "email" (JString <$> e)
               ++ field "url" (JString <$> u))
  end.

(** The properties in the order in which [fetchFromNpmsIO] writes them;
    [JSON.stringify] leaves out the undefined ones. *)
Definition of_documentation (d : NpmDocumentation) : value :=
  JObject
    ([("name", JString (name d)); ("version", JString (version d));
      ("description", JString (description d))]
     ++ field "homepage" (JString <$> homepage d)
     ++ field "repository" (JString <$> repository d)
     ++ field "author" (of_author <$> author d)
     ++ field "license" (JString <$> license d)
     ++ field "main" (JString <$> main d)
     ++ field "keywords" ((fun l => JArray (map JString l)) <$> keywords d)
     ++ field "dependencies" (of_dict <$> dependencies d)
     ++ field "devDependencies" (of_dict <$> devDependencies d)
     ++ field "readmeContent" (JString <$> readmeContent d)
     ++ field "readme" (JString <$> readme d)).

Fixpoint lookup (k : string) (l : list (string * value)) : option value :=
  match l with
  | [] => None
  | (k', v) :: l' => if String.eqb k k' then Some v else lookup k l'
  end.

Definition to_string (v : value) : option string :=
  match v with
  | JString s => Some s
  | _ => None
  end.

(** An optional property: absent, or present and of the right shape. *)
Definition optional {A} (read_ : value -> option A) (o : option value)
    : option (option A) :=
  match o with
  | None => Some None
  | Some v => Some <$> read_ v
  end.

Fixpoint to_strings (l : list value) : option (list string) :=
  match l with
  | [] => Some []
  | v :: l' =>
      match to_string v, to_strings l' with
      | Some s, Some r => Some (s :: r)
      | _, _ => None
      end
  end.

Definition to_keywords (v : value) : option (list string) :=
  match v with
  | JArray l => to_strings l
  | _ => None
  end.

Fixpoint to_pairs (l : list (string * value)) : option (list (string * string)) :=
  match l with
  | [] => Some []
  | (k, v) :: l' =>
      match to_string v, to_pairs l' with
      | Some s, Some r => Some ((k, s) :: r)
      | _, _ => None
      end
  end.

Definition to_dict (v : value) : option (list (string * string)) :=
  match v with
  | JObject l => to_pairs l
  | _ => None
  end.

Definition to_author (v : value) : option Author :=
  match v with
  | JString s => Some (AuthorString s)
  | JObject l =>
      match optional to_string (lookup "name" l),
            optional to_string (lookup "email" l),
            optional to_string (lookup "url" l) with
      | Some n, Some e, Some u => Some (AuthorObject n e u)
      | _, _, _ => None
      end
  | JArray _ => None
  end.

Definition to_documentation (v : value) : option NpmDocumentation :=
  match v with
  | JObject l =>
      n ← lookup "name" l ≫= to_string;
      v ← lookup "version" l ≫= to_string;
      d ← lookup "description" l ≫= to_string;
      hp ← optional to_string (lookup "homepage" l);
      rp ← optional to_string (lookup "repository" l);
      au ← optional to_author (lookup "author" l);
      li ← optional to_string (lookup "license" l);
      ma ← optional to_string (lookup "main" l);
      kw ← optional to_keywords (lookup "keywords" l);
      de ← optional to_dict (lookup "dependencies" l);
      dd ← optional to_dict (lookup "devDependencies" l);
      rm ← optional to_string (lookup "readme" l);
      rc ← optional to_string (lookup "readmeContent" l);
      Some (mkNpmDocumentation n v d hp rp au li ma kw de dd rm rc)
  | _ => None
  end.

Definition stringify (d : NpmDocumentation) : string :=
  print (of_documentation d).

Definition parse (s : string) : option NpmDocumentation :=
  read s ≫= to_documentation.

End Json.

Definition react_docs : NpmDocumentation :=
  {| name := "react"; version := "18.2.0";
     description := "React is a JavaScript library for building user interfaces.";
     homepage := Some "https://reactjs.org/";
     repository := Some "https://github.com/facebook/react";
     author := None; license := Some "MIT"; main := None;
     keywords := Some ["react"];
     dependencies := Some [("loose-envify", "^1.1.0")];
     devDependencies := None;
     readme := Some "README content included via npms.io";
     readmeContent := Some ("# react" +:+ String (ascii_of_N 10) "React is a library.") |}.

(** ** Sample data *)

Definition react_metadata : Metadata :=
  {| m_name := Some "react"; m_version := Some "18.2.0";
     m_description :=
       Some "React is a JavaScript library for building user interfaces.";
     m_keywords := Some ["react"];
     m_author := None; m_license := Some "MIT";
     m_links := Some (mkLinks (Some "https://www.npmjs.com/package/react")
                              (Some "https://reactjs.org/")
                              (Some "https://github.com/facebook/react") None);
     m_dependencies := Some [("loose-envify", "^1.1.0")];
     m_devDependencies := None;
     m_readme := Some ("# react" +:+ String (ascii_of_N 10) "React is a library.") |}.

(** A registry that knows [react] and answers 404 for everything else. *)
Definition registry (req : HttpRequest) : AxiosResult :=
  if String.eqb (url req) "https://api.npms.io/v2/package/react"
  then Resolved (Some (mkResponse (Some (mkCollected (Some react_metadata)))))
  else Rejected (AxiosError (Some (404, "Not Found")) true
                            "Request failed with status code 404").

(** A registry that answers 200 with nothing collected. *)
Definition registry_without_metadata (_ : HttpRequest) : AxiosResult :=
  Resolved (Some (mkResponse None)).

Definition sample_world (tb : gmap string Row) (fs : list (option string))
    (clock : Z) : World :=
  mkWorld tb fs clock [] registry [] None.

Definition sample_service : NpmDocService :=
  new_NpmDocService (defaultConfig "/srv/dist/npm-docs-cache.db") None.

(** A cache that holds [react], fetched at [fetched] with a TTL of [ttl_]. *)
Definition react_cached (fetched ttl_ : Z) : gmap string Row :=
  {[ "react" := mkRow (Json.stringify react_docs) fetched ttl_ ]}.

(** A cache whose payload for [react] is cut short. *)
Definition react_corrupted : gmap string Row :=
  {[ "react" := mkRow "{ name: react" 1700000000000 86400 ]}.

(** The answer of [registry] for [react]. *)
Definition react_response : option NpmsIOResponse :=
  Some (mkResponse (Some (mkCollected (Some react_metadata)))).

(** A cache that holds [react] and, under the empty name, a payload that is
    cut short. *)
Definition corrupted_under_empty_name : gmap string Row :=
  <[EmptyString := mkRow "{ name: react" 1700000000000 86400]>
    (react_cached 1700000000000 86400).

(** * Properties *)

(** The store is healthy for the next [n] calls into better-sqlite3. *)
Fixpoint healthy (n : nat) (fs : list (option string)) : bool :=
  match n, fs with
  | O, _ => true
  | S _, [] => true
  | S _, Some _ :: _ => false
  | S n, None :: fs => healthy n fs
  end.

(** The world after the next [n] calls into better-sqlite3 were made and
    nothing else has changed. *)
Definition after_calls (n : nat) (w : World) : World :=
  with_faults (drop n (faults w)) w.

(** What the table holds under a name, read as an entry: the pure reading
    of [get]. *)
Definition stored (JSON_parse : string -> option NpmDocumentation)
    (tb : gmap string Row) (key : string) : option CacheEntry :=
  match tb !! key with
  | Some row =>
      match JSON_parse (r_documentation row) with
      | Some d =>
          Some (mkCacheEntry key d (JsDate.new_Date (Some (r_fetched_at row)))
                             (r_ttl row))
      | None => None
      end
  | None => None
  end.

(** The payload stored under [key] does not deserialize. *)
Definition corrupted (JSON_parse : string -> option NpmDocumentation)
    (tb : gmap string Row) (key : string) : Prop :=
  exists row, tb !! key = Some row /\ JSON_parse (r_documentation row) = None.

(** The world after the clock was read once. *)
Definition tick (w : World) : World := (Date_now w).2.

(** The classes of error that [fetchFromNpmsIO] throws. *)
Definition fetch_error (e : Exn) : Prop :=
  (exists m, e = NotFoundError m) \/ (exists m, e = NetworkError m)
  \/ (exists m, e = Error m).

(** The tables [tb] and [tb'] hold the same under every name but [key]. *)
Definition agree_elsewhere (key : string) (tb tb' : gmap string Row) : Prop :=
  forall k, k <> key -> tb' !! k = tb !! k.

(** Reading [%XX] back: the inverse of [encodeURIComponent]. *)
Fixpoint percent_decode (s : string) : string :=
  match s with
  | EmptyString => EmptyString
  | String c rest =>
      match rest with
      | String h (String l s') =>
          if (N_of_ascii c =? 37)%N then
            match Json.hex_value h, Json.hex_value l with
            | Some a, Some b => String (ascii_of_N (16 * a + b)) (percent_decode s')
            | _, _ => String c (percent_decode rest)
            end
          else String c (percent_decode rest)
      | _ => String c (percent_decode rest)
      end
  end.

(** The characters that [encodeURIComponent] writes. *)
Definition url_safe (c : ascii) : bool :=
  let n := N_of_ascii c in
  (unreserved c || (n =? 37) || ((65 <=? n) && (n <=? 70)))%N.

Fixpoint all_chars (p : ascii -> bool) (s : string) : bool :=
  match s with
  | EmptyString => true
  | String c s' => p c && all_chars p s'
  end.

(** The metadata of an answer, as [fetchFromNpmsIO] reads it. *)
Definition metadata_of (data : option NpmsIOResponse) : option Metadata :=
  (data ≫= collected) ≫= metadata.

Ltac unfold_ops :=
  unfold getDocumentation, consultCache, checkCache, isCached, get, set, clearCache,
    fetchFromNpmsIO, axios_get, env_npm_package_version, Date_now,
    db_prepare, stmt_get, stmt_run_insert, stmt_run_delete, stmt_run_delete_all,
    sqlite_read, sqlite_write, next_fault, pop_fault,
    try_catch, bind, ret, throw, lift in *.

(** Case analysis on everything a computation branches on. *)
Ltac split_cases :=
  repeat match goal with
         | |- context [match ?x with _ => _ end] =>
             lazymatch x with
             | context [match _ with _ => _ end] => fail
             | _ => destruct x eqn:?; simpl in *
             end
         end.

Section CacheFacts.

Variable JSON_stringify : NpmDocumentation -> string.
Variable JSON_parse : string -> option NpmDocumentation.

Lemma get_hit (key : string) (w : World) (e : CacheEntry) :
  healthy 2 (faults w) = true ->
  stored JSON_parse (table w) key = Some e ->
  get JSON_parse key w = (Returned (Some e), after_calls 2 w).
Proof.
  unfold stored, after_calls. intros Hh Hs.
  destruct (table w !! key) as [row|] eqn:Hrow; [|discriminate].
  destruct (JSON_parse (r_documentation row)) as [d|] eqn:Hd; [|discriminate].
  injection Hs as <-.
  unfold_ops.
  destruct (faults w) as [|[?|] [|[?|] fs]] eqn:Hf; simpl in *;
    try discriminate; rewrite ?Hrow, ?Hd; reflexivity.
Qed.

Lemma get_returns (key : string) (w : World) :
  exists r, (get JSON_parse key w).1 = Returned r.
Proof.
  unfold_ops. split_cases; eauto.
Qed.

Lemma get_frame (key : string) (w : World) :
  let w' := (get JSON_parse key w).2 in
  requests w' = requests w /\ now w' = now w /\ later w' = later w
  /\ upstream w' = upstream w /\ npm_package_version w' = npm_package_version w.
Proof.
  unfold_ops. split_cases; auto.
Qed.


(** [get] only ever takes entries away. *)
Lemma get_table_subseteq (key : string) (w : World) :
  table (get JSON_parse key w).2 ⊆ table w.
Proof.
  unfold_ops. split_cases; try reflexivity.
  all: try apply delete_subseteq; try apply map_empty_subseteq.
Qed.

Lemma get_table_unchanged (key : string) (w : World) :
  ~ corrupted JSON_parse (table w) key ->
  table (get JSON_parse key w).2 = table w.
Proof.
  unfold corrupted. intros Hc. unfold_ops. split_cases; try reflexivity.
  all: exfalso; apply Hc; eauto.
Qed.

Lemma get_fault (key : string) (w : World) (msg : string) :
  next_fault w = Some msg ->
  get JSON_parse key w = (Returned None, pop_fault w).
Proof.
  intros H. unfold_ops. rewrite H. reflexivity.
Qed.

(** What [get] returns is what the table holds. *)
Lemma get_Some_stored (key : string) (w w' : World) (e : CacheEntry) :
  get JSON_parse key w = (Returned (Some e), w') ->
  stored JSON_parse (table w) key = Some e /\ w' = after_calls 2 w
  /\ healthy 2 (faults w) = true.
Proof.
  unfold stored, after_calls. unfold_ops.
  destruct (faults w) as [|[?|] [|[?|] fs]] eqn:Hf; simpl;
    destruct (table w !! key) as [row|]; simpl; try congruence;
    destruct (JSON_parse (r_documentation row)); simpl;
    split_cases; intros [= <- <-]; auto; try congruence.
Qed.

(** On a corrupted payload, with the store at work, the entry goes (and
    the whole table with it when the name is empty). *)
Lemma get_corrupted (key : string) (w : World) :
  healthy 4 (faults w) = true ->
  corrupted JSON_parse (table w) key ->
  get JSON_parse key w =
    (Returned None,
     with_table (if truthy key then delete key (table w) else ∅) (after_calls 4 w)).
Proof.
  unfold corrupted, after_calls. intros Hh (row & Hrow & Hd). unfold_ops.
  destruct (faults w) as [|[?|] [|[?|] [|[?|] [|[?|] fs]]]] eqn:Hf; simpl in *;
    try discriminate; rewrite ?Hrow, ?Hd; simpl;
    destruct (truthy key); simpl; rewrite ?Hf; reflexivity.
Qed.

Lemma isCached_returns (key : string) (w : World) :
  exists b, (isCached JSON_parse key w).1 = Returned b.
Proof.
  unfold isCached, try_catch, bind, ret.
  destruct (get JSON_parse key w) as [[[e|]|] w1]; simpl; eauto.
  unfold JsDate.toISOString, lift, Date_now, ret, throw.
  split_cases; eauto.
Qed.

Lemma isCached_frame (key : string) (w : World) :
  let w' := (isCached JSON_parse key w).2 in
  table w' ⊆ table w /\ requests w' = requests w /\ upstream w' = upstream w
  /\ npm_package_version w' = npm_package_version w.
Proof.
  pose proof (get_table_subseteq key w) as Ht.
  pose proof (get_frame key w) as (Hr & _ & _ & Hu & Hv).
  unfold isCached, try_catch, bind, ret in *.
  destruct (get JSON_parse key w) as [[[e|]|] w1]; simpl in *; auto.
  unfold JsDate.toISOString, lift, Date_now, ret, throw.
  split_cases; auto.
Qed.

Lemma isCached_table_unchanged (key : string) (w : World) :
  ~ corrupted JSON_parse (table w) key ->
  table (isCached JSON_parse key w).2 = table w.
Proof.
  intros Hc. pose proof (get_table_unchanged key w Hc) as Ht.
  unfold isCached, try_catch, bind, ret in *.
  destruct (get JSON_parse key w) as [[[e|]|] w1]; simpl in *; auto.
  unfold JsDate.toISOString, lift, Date_now, ret, throw.
  split_cases; auto.
Qed.

Lemma expiryTime_invalid (e : CacheEntry) :
  fetchedAt e = None -> expiryTime e = None.
Proof. unfold expiryTime. intros ->. reflexivity. Qed.

Lemma isCached_Some (key : string) (w w1 : World) (e : CacheEntry) :
  get JSON_parse key w = (Returned (Some e), w1) ->
  isCached JSON_parse key w =
    (Returned (JsDate.lt (Some (now w)) (expiryTime e)), tick w1)
  \/ (JsDate.lt (Some (now w)) (expiryTime e) = false
      /\ (isCached JSON_parse key w).1 = Returned false).
Proof.
  intros Hg. pose proof (get_frame key w) as (_ & Hn & _). rewrite Hg in Hn.
  cbn [snd] in Hn. pose proof (expiryTime_invalid e) as Hinv.
  unfold isCached, try_catch, bind, ret. rewrite Hg. cbv beta iota.
  unfold tick, Date_now, lift, throw, ret. rewrite Hn.
  destruct (fetchedAt e) as [f|].
  - destruct (expiryTime e); cbn; auto.
  - rewrite Hinv by reflexivity. cbn. auto.
Qed.

Lemma isCached_None (key : string) (w w1 : World) :
  get JSON_parse key w = (Returned None, w1) ->
  isCached JSON_parse key w = (Returned false, w1).
Proof.
  intros Hg. unfold isCached, try_catch, bind, ret. rewrite Hg. reflexivity.
Qed.

Lemma set_fault (key : string) (d : NpmDocumentation) (t : Z) (w : World)
    (msg : string) :
  next_fault w = Some msg ->
  set JSON_stringify key d t w =
    (Thrown (CacheError ("Cache update failed for " +:+ key +:+ ": " +:+ msg)),
     pop_fault w).
Proof.
  intros H. unfold_ops. rewrite H. reflexivity.
Qed.

Lemma set_throws_CacheError (key : string) (d : NpmDocumentation) (t : Z)
    (w w' : World) (e : Exn) :
  set JSON_stringify key d t w = (Thrown e, w') ->
  exists m, e = CacheError m /\ table w' = table w.
Proof.
  unfold_ops. split_cases; intros [= <- <-]; eauto.
Qed.

Lemma set_ok (key : string) (d : NpmDocumentation) (t : Z) (w : World) :
  healthy 2 (faults w) = true ->
  set JSON_stringify key d t w =
    (Returned tt,
     with_table (<[key := mkRow (JSON_stringify d) (now w) t]> (table w))
                (after_calls 1 (tick (after_calls 1 w)))).
Proof.
  unfold after_calls, tick. intros Hh. unfold_ops.
  destruct (faults w) as [|[?|] [|[?|] fs]] eqn:Hf; simpl in *;
    try discriminate; destruct (later w); simpl; rewrite ?Hf; reflexivity.
Qed.

Lemma clearCache_fault (key : option string) (w : World) (msg : string) :
  next_fault w = Some msg ->
  clearCache key w =
    (Thrown (CacheError ("Cache clear operation failed: " +:+ msg)), pop_fault w).
Proof.
  intros H. unfold_ops. destruct (truthy_opt key); rewrite H; reflexivity.
Qed.

Lemma clearCache_throws_CacheError (key : option string) (w w' : World) (e : Exn) :
  clearCache key w = (Thrown e, w') ->
  exists m, e = CacheError m /\ table w' = table w.
Proof.
  unfold_ops. split_cases; intros [= <- <-]; eauto.
Qed.

Lemma get_absent (key : string) (w : World) :
  table w !! key = None -> (get JSON_parse key w).1 = Returned None.
Proof.
  intros H. unfold_ops. split_cases; try reflexivity; congruence.
Qed.

(** A store that fails on the statement or on its execution. *)
Lemma get_unhealthy (key : string) (w : World) :
  healthy 2 (faults w) = false -> (get JSON_parse key w).1 = Returned None.
Proof.
  intros H. unfold_ops.
  destruct (faults w) as [|[?|] [|[?|] fs]]; simpl in *; congruence.
Qed.

Lemma set_unhealthy (key : string) (d : NpmDocumentation) (t : Z) (w : World) :
  healthy 2 (faults w) = false ->
  exists m, (set JSON_stringify key d t w).1 = Thrown (CacheError m)
            /\ table (set JSON_stringify key d t w).2 = table w.
Proof.
  intros H. unfold_ops.
  destruct (faults w) as [|[?|] [|[?|] fs]]; simpl in *; try congruence;
    split_cases; eauto.
Qed.

Lemma clearCache_unhealthy (key : option string) (w : World) :
  healthy 2 (faults w) = false ->
  exists m, (clearCache key w).1 = Thrown (CacheError m)
            /\ table (clearCache key w).2 = table w.
Proof.
  intros H. unfold_ops. destruct (truthy_opt key); cbv beta;
    destruct (faults w) as [|[?|] [|[?|] fs]]; simpl in *; try congruence; eauto.
Qed.

Lemma healthy_le (n m : nat) (fs : list (option string)) :
  (n <= m)%nat -> healthy m fs = true -> healthy n fs = true.
Proof.
  revert m fs. induction n as [|n IH]; intros m fs Hle H; [reflexivity|].
  destruct m as [|m]; [lia|]. destruct fs as [|[?|] fs]; simpl in *; auto.
  apply (IH m); [lia|assumption].
Qed.

Lemma healthy_drop (n m : nat) (fs : list (option string)) :
  healthy (n + m) fs = true -> healthy m (drop n fs) = true.
Proof.
  revert fs. induction n as [|n IH]; intros fs H; [assumption|].
  destruct fs as [|[?|] fs]; simpl in *; auto; [|discriminate].
  destruct m; reflexivity.
Qed.

End CacheFacts.

(** ** The registry client *)

Lemma fetch_frame (this : NpmDocService) (key : string) (w : World) :
  let w' := (fetchFromNpmsIO this key w).2 in
  requests w' = request_for this key (npm_package_version w) :: requests w
  /\ table w' = table w /\ faults w' = faults w /\ now w' = now w
  /\ later w' = later w.
Proof.
  unfold_ops. split_cases; auto.
Qed.

Lemma fetch_throws (this : NpmDocService) (key : string) (w w' : World) (e : Exn) :
  fetchFromNpmsIO this key w = (Thrown e, w') -> fetch_error e.
Proof.
  unfold fetch_error. unfold_ops. split_cases; intros [= <- <-]; eauto.
Qed.

Lemma fetch_rejected (this : NpmDocService) (key : string) (w : World) (err : Exn) :
  upstream w (request_for this key (npm_package_version w)) = Rejected err ->
  exists e,
    (fetchFromNpmsIO this key w).1 = Thrown e
    /\ match err with
       | NotFoundError _ => e = err
       | AxiosError (Some (status, statusText)) _ _ =>
           if status =? 404
           then e = NotFoundError ("Package '" +:+ key +:+ "' not found.")
           else e = NetworkError ("Failed to fetch from npms.io: HTTP "
                                  +:+ pretty status +:+ " " +:+ statusText)
       | AxiosError None true m =>
           e = NetworkError ("Network error connecting to npms.io: " +:+ m)
       | _ => e = Error ("An unexpected error occurred while fetching from npms.io: "
                         +:+ exn_message err)
       end.
Proof.
  intros H. unfold_ops. rewrite H. split_cases; eauto.
Qed.

Section ServiceFacts.

Variable JSON_stringify : NpmDocumentation -> string.
Variable JSON_parse : string -> option NpmDocumentation.
Variable this : NpmDocService.

Lemma checkCache_returns (key : string) (w : World) :
  exists r, (checkCache JSON_parse key w).1 = Returned r.
Proof.
  unfold checkCache, try_catch, bind, ret.
  destruct (isCached JSON_parse key w) as [[[|]|] w1]; simpl; eauto.
  destruct (get JSON_parse key w1) as [[[e|]|] w2]; simpl; eauto.
Qed.

Lemma checkCache_frame (key : string) (w : World) :
  let w' := (checkCache JSON_parse key w).2 in
  table w' ⊆ table w /\ requests w' = requests w /\ upstream w' = upstream w
  /\ npm_package_version w' = npm_package_version w.
Proof.
  pose proof (isCached_frame JSON_parse key w) as (Ht & Hr & Hu & Hv).
  unfold checkCache, try_catch, bind, ret.
  destruct (isCached JSON_parse key w) as [[[|]|] w1]; simpl in *; auto.
  pose proof (get_table_subseteq JSON_parse key w1) as Ht1.
  pose proof (get_frame JSON_parse key w1) as (Hr1 & _ & _ & Hu1 & Hv1).
  assert (table (get JSON_parse key w1).2 ⊆ table w) by (etrans; eassumption).
  destruct (get JSON_parse key w1) as [[[e|]|] w2]; simpl in *;
    repeat split; congruence || assumption.
Qed.

Lemma checkCache_table_unchanged (key : string) (w : World) :
  ~ corrupted JSON_parse (table w) key ->
  table (checkCache JSON_parse key w).2 = table w.
Proof.
  intros Hc. pose proof (isCached_table_unchanged JSON_parse key w Hc) as Ht.
  unfold checkCache, try_catch, bind, ret.
  destruct (isCached JSON_parse key w) as [[[|]|] w1]; simpl in *; auto.
  rewrite <- Ht in Hc.
  pose proof (get_table_unchanged JSON_parse key w1 Hc) as Ht1.
  destruct (get JSON_parse key w1) as [[[e|]|] w2]; simpl in *; congruence.
Qed.

(** The cache-hit path: a valid entry, and the store at work for the four
    calls that the two reads make. *)
Lemma checkCache_hit (key : string) (w : World) (e : CacheEntry) :
  healthy 4 (faults w) = true ->
  stored JSON_parse (table w) key = Some e ->
  JsDate.lt (Some (now w)) (expiryTime e) = true ->
  exists w', checkCache JSON_parse key w = (Returned (Some (documentation e)), w')
             /\ table w' = table w /\ requests w' = requests w.
Proof.
  intros Hh Hs Hlt.
  assert (Hh2 : healthy 2 (faults w) = true).
  { destruct (faults w) as [|[?|] [|[?|] ?]]; simpl in *; congruence. }
  pose proof (get_hit JSON_parse key w e Hh2 Hs) as Hg.
  destruct (isCached_Some JSON_parse key w _ e Hg) as [Hi|[Hf _]]; [|congruence].
  rewrite Hlt in Hi.
  assert (Hh' : healthy 2 (faults (tick (after_calls 2 w))) = true).
  { unfold tick, after_calls, Date_now. simpl.
    destruct (faults w) as [|[?|] [|[?|] ?]]; simpl in *; try congruence;
      destruct (later w); simpl; auto. }
  assert (Hs' : stored JSON_parse (table (tick (after_calls 2 w))) key = Some e).
  { unfold tick, after_calls, Date_now. simpl. destruct (later w); simpl; auto. }
  pose proof (get_hit JSON_parse key _ e Hh' Hs') as Hg'.
  unfold checkCache, try_catch, bind, ret. rewrite Hi, Hg'.
  eexists; split; [reflexivity|].
  unfold tick, after_calls, Date_now. simpl. destruct (later w); simpl; auto.
Qed.

End ServiceFacts.

Example normalize_react : normalize react_metadata = react_docs.
Proof. reflexivity. Qed.

Example json_round_trip_react : Json.parse (Json.stringify react_docs) = Some react_docs.
Proof. vm_compute. reflexivity. Qed.

Example json_corrupted : Json.parse "{ name: react" = None.
Proof. vm_compute. reflexivity. Qed.

Example encode_scoped_name :
  encodeURIComponent "@azure/storage-blob" = "%40azure%2Fstorage-blob".
Proof. reflexivity. Qed.

(** ** The claims about the cache store *)

Section CacheClaims.

Variable JSON_stringify : NpmDocumentation -> string.
Variable JSON_parse : string -> option NpmDocumentation.

(** C5, as amended.  When the store fails during the operation (on the
    statement or on its execution), [get] answers with a miss and
    [isCached] with false, and neither ever throws, whatever the store
    does; [clearCache], like [set], reports the failure to its caller as a
    [CacheError] and leaves the table as it was. *)
Theorem C5_store_failure_get_isCached_degrade_clearCache_set_report
    (key : string) (which : option string) (d : NpmDocumentation) (t : Z)
    (w : World) :
  (exists r, (get JSON_parse key w).1 = Returned r)
  /\ (exists b, (isCached JSON_parse key w).1 = Returned b)
  /\ (healthy 2 (faults w) = false ->
      (get JSON_parse key w).1 = Returned None
      /\ (isCached JSON_parse key w).1 = Returned false
      /\ (exists m, (clearCache which w).1 = Thrown (CacheError m)
                    /\ table (clearCache which w).2 = table w)
      /\ (exists m, (set JSON_stringify key d t w).1 = Thrown (CacheError m)
                    /\ table (set JSON_stringify key d t w).2 = table w)).
Proof.
  split; [apply get_returns|]. split; [apply isCached_returns|].
  intros Hh. pose proof (get_unhealthy JSON_parse key w Hh) as Hg.
  split; [exact Hg|]. split.
  - destruct (get JSON_parse key w) as [o w1] eqn:E. simpl in Hg. subst o.
    rewrite (isCached_None JSON_parse key w w1 E). reflexivity.
  - split; [apply clearCache_unhealthy | apply set_unhealthy]; assumption.
Qed.

(** C6.  [isCached] never throws, and it answers true exactly when [get]
    gives an entry and the current time is strictly before the expiry date
    [fetchedAt + ttl * 1000] of that entry, the comparison being the one of
    JavaScript dates.  It answers false when the store fails on the read.
    For a row whose fetch time and expiry are representable dates the
    comparison is [now < fetched_at + ttl * 1000] on the integers. *)
Theorem C6_isCached_true_iff_entry_and_now_before_expiry
    (key : string) (w : World) :
  exists b,
    (isCached JSON_parse key w).1 = Returned b
    /\ (b = true <->
        exists e w1, get JSON_parse key w = (Returned (Some e), w1)
                     /\ JsDate.lt (Some (now w)) (expiryTime e) = true)
    /\ (healthy 2 (faults w) = false -> b = false)
    /\ (forall row d,
          healthy 2 (faults w) = true ->
          table w !! key = Some row ->
          JSON_parse (r_documentation row) = Some d ->
          Z.abs (r_fetched_at row) <= JsDate.max_time ->
          Z.abs (r_fetched_at row + r_ttl row * 1000) <= JsDate.max_time ->
          (b = true <-> now w < r_fetched_at row + r_ttl row * 1000)).
Proof.
  destruct (get JSON_parse key w) as [[[e|]|err] w1] eqn:Hg.
  - exists (JsDate.lt (Some (now w)) (expiryTime e)).
    destruct (get_Some_stored JSON_parse key w w1 e Hg) as (Hs & _ & Hh).
    split; [|split; [|split]].
    + destruct (isCached_Some JSON_parse key w w1 e Hg) as [->|[-> ->]];
        reflexivity.
    + split; [intros H; exists e, w1; auto|].
      intros (e' & w' & [= <- <-] & H). exact H.
    + congruence.
    + intros row d _ Hrow Hd Hf Hx. unfold stored in Hs. rewrite Hrow, Hd in Hs.
      injection Hs as <-. unfold expiryTime, JsDate.new_Date, JsDate.getTime. simpl.
      apply Z.leb_le in Hf. rewrite Hf. simpl.
      apply Z.leb_le in Hx. rewrite Hx. simpl. apply Z.ltb_lt.
  - exists false. rewrite (isCached_None JSON_parse key w w1 Hg).
    split; [reflexivity|]. split; [|split].
    + split; [discriminate|]. intros (e & w' & [=] & _).
    + reflexivity.
    + intros row d Hh Hrow Hd _ _. exfalso.
      assert (Hs : stored JSON_parse (table w) key
                   = Some (mkCacheEntry key d
                             (JsDate.new_Date (Some (r_fetched_at row))) (r_ttl row))).
      { unfold stored. rewrite Hrow, Hd. reflexivity. }
      rewrite (get_hit JSON_parse key w _ Hh Hs) in Hg. discriminate.
  - destruct (get_returns JSON_parse key w) as [r Hr]. rewrite Hg in Hr.
    discriminate.
Qed.

(** C7.  When the payload stored under a key does not deserialize, [get]
    returns absent without throwing, and so does every later [get] of that
    key for as long as nothing else is stored under it; and with the store
    at work for the read and for the delete, the entry is gone from the
    table (it is the only one to go, unless the key is the empty name,
    which [clearCache] takes for no name at all). *)
Theorem C7_get_deletes_corrupted_entry_and_returns_absent
    (key : string) (w : World) :
  corrupted JSON_parse (table w) key ->
  exists w1,
    get JSON_parse key w = (Returned None, w1)
    /\ (forall w2, table w2 !! key = table w1 !! key ->
                   (get JSON_parse key w2).1 = Returned None)
    /\ (healthy 4 (faults w) = true ->
        table w1 !! key = None
        /\ (truthy key = true -> table w1 = delete key (table w))).
Proof.
  intros Hc. pose proof Hc as (row & Hrow & Hd).
  assert (H1 : forall w', table w' !! key = Some row ->
                          (get JSON_parse key w').1 = Returned None).
  { intros w' H. unfold_ops. split_cases; try reflexivity; congruence. }
  pose proof (get_table_subseteq JSON_parse key w) as Hsub.
  pose proof (H1 w Hrow) as Hg.
  destruct (get JSON_parse key w) as [o w1] eqn:E. simpl in Hg, Hsub. subst o.
  exists w1. split; [reflexivity|]. split.
  - intros w2 H2. destruct (table w1 !! key) as [row'|] eqn:E1.
    + apply H1. rewrite H2. f_equal.
      pose proof (lookup_weaken _ _ _ _ E1 Hsub). congruence.
    + apply get_absent. exact H2.
  - intros Hh. rewrite (get_corrupted JSON_parse key w Hh Hc) in E.
    injection E as <-. simpl. split.
    + destruct (truthy key); [apply lookup_delete_eq | apply lookup_empty].
    + intros ->. reflexivity.
Qed.

(** C8.  With the store at work, [set(name, d, t)] followed by [get(name)]
    in the world that [set] left gives an entry whose documentation is [d]
    (for a record that JSON carries through: [JSON.parse (JSON.stringify d)]
    is [d]) and whose TTL is [t], for every [t]; the entry bears the name
    and the time of the write. *)
Theorem C8_set_then_get_round_trip
    (key : string) (d : NpmDocumentation) (t : Z) (w : World) :
  JSON_parse (JSON_stringify d) = Some d ->
  healthy 4 (faults w) = true ->
  exists w1 w2 e,
    set JSON_stringify key d t w = (Returned tt, w1)
    /\ get JSON_parse key w1 = (Returned (Some e), w2)
    /\ documentation e = d /\ ttl e = t
    /\ packageName e = key /\ fetchedAt e = JsDate.new_Date (Some (now w)).
Proof.
  intros Hrt Hh.
  rewrite (set_ok JSON_stringify key d t w (healthy_le 2 4 _ ltac:(lia) Hh)).
  eexists _, _, (mkCacheEntry key d (JsDate.new_Date (Some (now w))) t).
  split; [reflexivity|]. split; [|auto].
  apply get_hit.
  - unfold after_calls, tick, Date_now. simpl.
    destruct (later w); simpl; rewrite drop_drop; apply (healthy_drop 2 2); exact Hh.
  - unfold stored. simpl. rewrite lookup_insert_eq. simpl. rewrite Hrt. reflexivity.
Qed.

End CacheClaims.

(** ** The claims about the orchestrator *)

Section ServiceClaims.

Variable JSON_stringify : NpmDocumentation -> string.
Variable JSON_parse : string -> option NpmDocumentation.
Variable this : NpmDocService.

Lemma consultCache_returns (key : string) (forceFresh : bool) (w : World) :
  exists r, (consultCache JSON_parse key forceFresh w).1 = Returned r.
Proof.
  unfold consultCache. destruct forceFresh; simpl.
  - eexists; reflexivity.
  - apply checkCache_returns.
Qed.

Lemma consultCache_frame (key : string) (forceFresh : bool) (w : World) :
  let w' := (consultCache JSON_parse key forceFresh w).2 in
  table w' ⊆ table w /\ requests w' = requests w /\ upstream w' = upstream w
  /\ npm_package_version w' = npm_package_version w.
Proof.
  unfold consultCache. destruct forceFresh; simpl.
  - auto.
  - apply checkCache_frame.
Qed.

Lemma consultCache_table_unchanged (key : string) (forceFresh : bool) (w : World) :
  forceFresh = true \/ ~ corrupted JSON_parse (table w) key ->
  table (consultCache JSON_parse key forceFresh w).2 = table w.
Proof.
  unfold consultCache. destruct forceFresh; simpl; [reflexivity|].
  intros [?|Hc]; [discriminate|]. apply checkCache_table_unchanged. exact Hc.
Qed.

(** The cache-hit path of [getDocumentation]. *)
Lemma getDocumentation_hit (key : string) (w : World) (e : CacheEntry) :
  healthy 4 (faults w) = true ->
  stored JSON_parse (table w) key = Some e ->
  JsDate.lt (Some (now w)) (expiryTime e) = true ->
  exists w',
    getDocumentation JSON_stringify JSON_parse this key false w
      = (Returned (documentation e), w')
    /\ table w' = table w /\ requests w' = requests w.
Proof.
  intros Hh Hs Hlt.
  destruct (checkCache_hit JSON_parse key w e Hh Hs Hlt) as (w' & Hc & Ht & Hr).
  exists w'. unfold getDocumentation, consultCache, bind, ret. simpl.
  rewrite Hc. auto.
Qed.

(** C2.  With [forceFresh] false, a valid entry in the cache (stored under
    the name, deserializable, the current time before its expiry) and the
    store at work for the two reads, [getDocumentation] returns the
    documentation of that entry and sends no request to the registry. *)
Theorem C2_cache_hit_returns_entry_without_request
    (key : string) (w : World) (e : CacheEntry) :
  healthy 4 (faults w) = true ->
  stored JSON_parse (table w) key = Some e ->
  JsDate.lt (Some (now w)) (expiryTime e) = true ->
  exists w',
    getDocumentation JSON_stringify JSON_parse this key false w
      = (Returned (documentation e), w')
    /\ requests w' = requests w.
Proof.
  intros Hh Hs Hlt.
  destruct (getDocumentation_hit key w e Hh Hs Hlt) as (w' & Hg & _ & Hr).
  exists w'. auto.
Qed.

(** C10.  On the cache-hit path, the table of the cache is after the call
    what it was before: no row was written, refreshed or deleted. *)
Theorem C10_cache_hit_leaves_table_unchanged
    (key : string) (w : World) (e : CacheEntry) :
  healthy 4 (faults w) = true ->
  stored JSON_parse (table w) key = Some e ->
  JsDate.lt (Some (now w)) (expiryTime e) = true ->
  table (getDocumentation JSON_stringify JSON_parse this key false w).2 = table w.
Proof.
  intros Hh Hs Hlt.
  destruct (getDocumentation_hit key w e Hh Hs Hlt) as (w' & Hg & Ht & _).
  rewrite Hg. exact Ht.
Qed.

(** C3.  When the cache was not served from, the fetch returned [docs] and
    [set] then threw, [getDocumentation] returns [docs]. *)
Theorem C3_set_failure_still_returns_fetched_docs
    (key : string) (forceFresh : bool) (w w1 w2 w3 : World)
    (docs : NpmDocumentation) (cacheError : Exn) :
  consultCache JSON_parse key forceFresh w = (Returned None, w1) ->
  fetchFromNpmsIO this key w1 = (Returned docs, w2) ->
  set JSON_stringify key docs (cacheTtl (config this)) w2 = (Thrown cacheError, w3) ->
  getDocumentation JSON_stringify JSON_parse this key forceFresh w
    = (Returned docs, w3).
Proof.
  intros Hc Hf Hs. unfold getDocumentation, bind, try_catch, ret.
  rewrite Hc, Hf, Hs. reflexivity.
Qed.

(** C4.  When the cache was not served from and the fetch threw,
    [getDocumentation] throws that very error, which is of the class
    [NotFoundError] after a 404, of the class [NetworkError] after another
    status or when no response came, and never a [CacheError].  [set] is not
    reached: every row of the table after the call was there, the same,
    before it, so that no entry was created or overwritten; and the table is
    the same altogether unless the check of the cache met a payload that does
    not deserialize, which [get] deletes. *)
Theorem C4_fetch_error_propagates_and_no_entry_is_written
    (key : string) (forceFresh : bool) (w w1 w2 : World) (fetchError : Exn) :
  consultCache JSON_parse key forceFresh w = (Returned None, w1) ->
  fetchFromNpmsIO this key w1 = (Thrown fetchError, w2) ->
  getDocumentation JSON_stringify JSON_parse this key forceFresh w
    = (Thrown fetchError, w2)
  /\ fetch_error fetchError
  /\ (forall status statusText rq m,
        upstream w (request_for this key (npm_package_version w))
          = Rejected (AxiosError (Some (status, statusText)) rq m) ->
        if status =? 404
        then fetchError = NotFoundError ("Package '" +:+ key +:+ "' not found.")
        else exists m', fetchError = NetworkError m')
  /\ (forall m,
        upstream w (request_for this key (npm_package_version w))
          = Rejected (AxiosError None true m) ->
        exists m', fetchError = NetworkError m')
  /\ table w2 ⊆ table w
  /\ (forceFresh = true \/ ~ corrupted JSON_parse (table w) key ->
      table w2 = table w).
Proof.
  intros Hc Hf.
  pose proof (consultCache_frame key forceFresh w) as (Hsub & _ & Hu & Hv).
  pose proof (consultCache_table_unchanged key forceFresh w) as Hsame.
  rewrite Hc in Hsub, Hu, Hv, Hsame. simpl in Hsub, Hu, Hv, Hsame.
  pose proof (fetch_frame this key w1) as (_ & Ht & _).
  rewrite Hf in Ht. simpl in Ht.
  split; [|split; [|split; [|split; [|split]]]].
  - unfold getDocumentation, bind, try_catch, throw. rewrite Hc, Hf. reflexivity.
  - eapply fetch_throws; eassumption.
  - intros status statusText rq m Hup. rewrite <- Hu, <- Hv in Hup.
    destruct (fetch_rejected this key w1 _ Hup) as (e' & He & Hcls).
    rewrite Hf in He. injection He as <-. simpl in Hcls.
    destruct (status =? 404); eauto.
  - intros m Hup. rewrite <- Hu, <- Hv in Hup.
    destruct (fetch_rejected this key w1 _ Hup) as (e' & He & Hcls).
    rewrite Hf in He. injection He as <-. simpl in Hcls. eauto.
  - rewrite Ht. exact Hsub.
  - intros H. rewrite Ht. apply Hsame. exact H.
Qed.

(** C9.  Whatever the store does, what [getDocumentation] throws is what
    the fetch threw: a [NotFoundError], a [NetworkError] or a plain [Error],
    and never a [CacheError]. *)
Theorem C9_getDocumentation_never_throws_CacheError
    (key : string) (forceFresh : bool) (w w' : World) (e : Exn) :
  getDocumentation JSON_stringify JSON_parse this key forceFresh w = (Thrown e, w') ->
  fetch_error e /\ (forall m, e <> CacheError m).
Proof.
  intros H.
  assert (Hfe : fetch_error e).
  { revert H. unfold getDocumentation, bind, try_catch, ret, throw.
    destruct (consultCache_returns key forceFresh w) as [r Hr].
    destruct (consultCache JSON_parse key forceFresh w) as [o w1]. simpl in Hr.
    subst o. destruct r as [d|]; [discriminate|].
    destruct (fetchFromNpmsIO this key w1) as [[docs|err] w2] eqn:Hf.
    - destruct (set JSON_stringify key docs (cacheTtl (config this)) w2)
        as [[[]|] w3]; discriminate.
    - intros [= <- <-]. eapply fetch_throws; eassumption. }
  split; [exact Hfe|].
  intros m ->. destruct Hfe as [[? [=]]|[[? [=]]|[? [=]]]].
Qed.

End ServiceClaims.

(** ** Further properties of the orchestrator and of its collaborators *)

Section Further.

Variable JSON_stringify : NpmDocumentation -> string.
Variable JSON_parse : string -> option NpmDocumentation.
Variable this : NpmDocService.

(** X1.  Bypass: with [forceFresh] the registry is asked whatever the cache
    holds, and with the store at work the fresh result is written over the
    entry, stamped with the time of the write and the configured TTL. *)
Lemma bypass_fetches_and_overwrites
    (key : string) (w w2 : World) (docs : NpmDocumentation) :
  fetchFromNpmsIO this key w = (Returned docs, w2) ->
  healthy 2 (faults w) = true ->
  exists w3,
    getDocumentation JSON_stringify JSON_parse this key true w = (Returned docs, w3)
    /\ requests w3 = request_for this key (npm_package_version w) :: requests w
    /\ table w3 = <[key := mkRow (JSON_stringify docs) (now w)
                                  (cacheTtl (config this))]> (table w).
Proof.
  intros Hf Hh.
  pose proof (fetch_frame this key w) as (Hr & Ht & Hfs & Hn & Hl).
  rewrite Hf in Hr, Ht, Hfs, Hn, Hl. simpl in Hr, Ht, Hfs, Hn, Hl.
  rewrite <- Hfs in Hh.
  unfold getDocumentation, consultCache, bind, try_catch, ret. simpl.
  rewrite Hf, (set_ok JSON_stringify key docs _ w2 Hh).
  eexists; split; [reflexivity|]. simpl. rewrite Hn, Ht. split; [|reflexivity].
  unfold tick, after_calls, Date_now. simpl. destruct (later w2); simpl; exact Hr.
Qed.

(** The defensive branch: [isCached] said true and [get] then found
    nothing; the check of the cache ends as a miss. *)
Lemma checkCache_inconsistency_is_a_miss (key : string) (w w1 w2 : World) :
  isCached JSON_parse key w = (Returned true, w1) ->
  get JSON_parse key w1 = (Returned None, w2) ->
  checkCache JSON_parse key w = (Returned None, w2).
Proof.
  intros Hi Hg. unfold checkCache, try_catch, bind, ret. rewrite Hi, Hg.
  reflexivity.
Qed.

(** X2.  Full invalidation: [clearCache()] with the store at work empties the
    table, and nothing is cached for as long as it stays empty. *)
Lemma clearCache_all_then_nothing_is_cached (w : World) :
  healthy 2 (faults w) = true ->
  exists w1,
    clearCache None w = (Returned tt, w1)
    /\ table w1 = ∅
    /\ (forall key w2, table w2 = ∅ ->
                       (isCached JSON_parse key w2).1 = Returned false).
Proof.
  intros Hh. exists (with_table ∅ (after_calls 2 w)). split; [|split].
  - unfold after_calls. unfold_ops. simpl.
    destruct (faults w) as [|[?|] [|[?|] fs]] eqn:Hf; simpl in *;
      try discriminate; reflexivity.
  - reflexivity.
  - intros key w2 Hempty.
    assert (Hn : table w2 !! key = None) by (rewrite Hempty; apply lookup_empty).
    pose proof (get_absent JSON_parse key w2 Hn) as Hg.
    destruct (get JSON_parse key w2) as [o w3] eqn:E. simpl in Hg. subst o.
    rewrite (isCached_None JSON_parse key w2 w3 E). reflexivity.
Qed.

End Further.


(** X4.  An answer without metadata, or whose metadata has no name, is a
    package that was not found. *)
Lemma fetch_without_metadata_is_not_found
    (this : NpmDocService) (key : string) (w : World)
    (data : option NpmsIOResponse) :
  upstream w (request_for this key (npm_package_version w)) = Resolved data ->
  match (data ≫= collected) ≫= metadata with
  | Some md => truthy_opt (m_name md) = false
  | None => True
  end ->
  (fetchFromNpmsIO this key w).1
  = Thrown (NotFoundError ("Package '" +:+ key +:+ "' not found via npms.io.")).
Proof.
  intros Hup Hmd. unfold_ops. rewrite Hup.
  destruct ((data ≫= collected) ≫= metadata) as [md|]; [rewrite Hmd|]; reflexivity.
Qed.


(** The registry URL of the environment reaches the configuration and
    leaves the request where it was. *)
Lemma request_ignores_NPM_REGISTRY_URL
    (dbPath_ : string) (env env' : Env) (key : string) (v : option string) :
  request_for (new_NpmDocService (getNpmDocServiceConfig dbPath_ env) None) key v
  = request_for (new_NpmDocService (getNpmDocServiceConfig dbPath_ env') None) key v.
Proof. reflexivity. Qed.

(** ** The claim about the registry endpoint *)

(** C1, as amended.  Whatever the configuration of the service holds (and
    so whatever its [npmRegistry]), the fetch sends exactly one request, a
    GET of [https://api.npms.io/v2/package/] followed by the encoded name,
    accepting JSON, with a timeout of 15 seconds. *)
Theorem C1_fetch_requests_npms_io_whatever_the_configuration
    (managed : NpmDocServiceConfig) (overrides : option PartialConfig)
    (key : string) (w : World) :
  exists req,
    requests (fetchFromNpmsIO (new_NpmDocService managed overrides) key w).2
      = req :: requests w
    /\ url req = "https://api.npms.io/v2/package/" +:+ encodeURIComponent key
    /\ h_Accept req = "application/json"
    /\ timeout req = 15000.
Proof.
  destruct (fetch_frame (new_NpmDocService managed overrides) key w) as (Hr & _).
  eexists. split; [exact Hr|]. simpl. auto.
Qed.

(** The claim C1 as it is written fails: with the default configuration the
    request for [react] does not go to [https://registry.npmjs.org]. *)
Lemma C1_request_url_is_not_built_from_npmRegistry :
  ~ (forall (managed : NpmDocServiceConfig) (key : string) (w : World),
       exists req,
         requests (fetchFromNpmsIO (new_NpmDocService managed None) key w).2
           = req :: requests w
         /\ url req = npmRegistry (config (new_NpmDocService managed None))
                      +:+ "/package/" +:+ encodeURIComponent key).
Proof.
  intros H.
  destruct (H (defaultConfig "/srv/dist/npm-docs-cache.db") "react"
              (sample_world ∅ [] 1700000000000)) as (req & Hr & Hu).
  vm_compute in Hr. injection Hr as <-. vm_compute in Hu. discriminate Hu.
Qed.

(** The claim C5 as it is written fails for [clearCache]: a store that
    fails makes it throw. *)
Lemma C5_clearCache_throws_on_store_failure :
  ~ (forall (which : option string) (w : World),
       exists r, (clearCache which w).1 = Returned r).
Proof.
  intros H.
  destruct (H (Some "react")
              (sample_world (react_cached 1700000000000 86400)
                            [Some "database is locked"] 1700000001000))
    as (r & Hr).
  vm_compute in Hr. discriminate Hr.
Qed.

(** ** The claims at work on the sample data *)

(** [react] was cached a second ago for a day: it is served from the cache. *)
Lemma C2_witness :
  exists w',
    getDocumentation Json.stringify Json.parse sample_service "react" false
      (sample_world (react_cached 1700000000000 86400) [] 1700000001000)
      = (Returned react_docs, w')
    /\ requests w' = [].
Proof.
  apply (C2_cache_hit_returns_entry_without_request
           Json.stringify Json.parse sample_service "react"
           (sample_world (react_cached 1700000000000 86400) [] 1700000001000)
           (mkCacheEntry "react" react_docs (Some 1700000000000) 86400));
    vm_compute; reflexivity.
Defined.

(** The same call leaves the row of [react] as it was. *)
Lemma C10_witness :
  table (getDocumentation Json.stringify Json.parse sample_service "react" false
           (sample_world (react_cached 1700000000000 86400) [] 1700000001000)).2
  = react_cached 1700000000000 86400.
Proof.
  apply (C10_cache_hit_leaves_table_unchanged
           Json.stringify Json.parse sample_service "react"
           (sample_world (react_cached 1700000000000 86400) [] 1700000001000)
           (mkCacheEntry "react" react_docs (Some 1700000000000) 86400));
    vm_compute; reflexivity.
Defined.

(** A forced fetch of [react] with a store that fails on the insert. *)
Lemma C3_witness :
  exists w3,
    getDocumentation Json.stringify Json.parse sample_service "react" true
      (sample_world ∅ [None; Some "database or disk is full"] 1700000001000)
      = (Returned react_docs, w3).
Proof.
  eexists.
  eapply (C3_set_failure_still_returns_fetched_docs
            Json.stringify Json.parse sample_service "react" true
            (sample_world ∅ [None; Some "database or disk is full"] 1700000001000)).
  - vm_compute. reflexivity.
  - vm_compute. reflexivity.
  - vm_compute. reflexivity.
Defined.

(** A package that the registry does not know. *)
Lemma C4_witness :
  exists w2,
    getDocumentation Json.stringify Json.parse sample_service
      "left-pad-xyz-missing" false (sample_world ∅ [] 1700000001000)
      = (Thrown (NotFoundError "Package 'left-pad-xyz-missing' not found."), w2).
Proof.
  eexists. eapply proj1.
  eapply (C4_fetch_error_propagates_and_no_entry_is_written
            Json.stringify Json.parse sample_service "left-pad-xyz-missing" false
            (sample_world ∅ [] 1700000001000)).
  - vm_compute. reflexivity.
  - vm_compute. reflexivity.
Defined.

(** A store that is locked: the reads degrade, [clearCache] and [set] throw. *)
Lemma C5_witness :
  let w := sample_world (react_cached 1700000000000 86400)
                        [Some "database is locked"] 1700000001000 in
  (get Json.parse "react" w).1 = Returned None
  /\ (isCached Json.parse "react" w).1 = Returned false
  /\ (exists m, (clearCache (Some "react") w).1 = Thrown (CacheError m)
                /\ table (clearCache (Some "react") w).2 = table w)
  /\ (exists m, (set Json.stringify "react" react_docs 86400 w).1
                = Thrown (CacheError m)
                /\ table (set Json.stringify "react" react_docs 86400 w).2 = table w).
Proof.
  intros w.
  apply (C5_store_failure_get_isCached_degrade_clearCache_set_report
           Json.stringify Json.parse "react" (Some "react") react_docs 86400 w).
  reflexivity.
Defined.

(** The boundary: fetched ten seconds ago, a TTL of ten seconds has run
    out and a TTL of eleven has not. *)
Lemma C6_witness :
  (isCached Json.parse "react"
     (sample_world (react_cached 1700000000000 10) [] 1700000010000)).1
  = Returned false
  /\ (isCached Json.parse "react"
        (sample_world (react_cached 1700000000000 11) [] 1700000010000)).1
     = Returned true.
Proof.
  split.
  - destruct (C6_isCached_true_iff_entry_and_now_before_expiry Json.parse "react"
                (sample_world (react_cached 1700000000000 10) [] 1700000010000))
      as (b & Hb & _ & _ & Hz).
    rewrite Hb. f_equal. destruct b; [|reflexivity]. exfalso.
    assert (H : 1700000010000 < 1700000000000 + 10 * 1000).
    { apply (Hz (mkRow (Json.stringify react_docs) 1700000000000 10) react_docs);
        try (vm_compute; reflexivity); vm_compute; discriminate. }
    lia.
  - destruct (C6_isCached_true_iff_entry_and_now_before_expiry Json.parse "react"
                (sample_world (react_cached 1700000000000 11) [] 1700000010000))
      as (b & Hb & _ & _ & Hz).
    rewrite Hb. f_equal.
    apply (Hz (mkRow (Json.stringify react_docs) 1700000000000 11) react_docs);
      try (vm_compute; reflexivity); vm_compute; discriminate.
Defined.

(** A payload cut short is deleted by the read. *)
Lemma C7_witness :
  exists w1,
    get Json.parse "react" (sample_world react_corrupted [] 1700000001000)
      = (Returned None, w1)
    /\ table w1 !! "react" = None
    /\ (get Json.parse "react" w1).1 = Returned None.
Proof.
  destruct (C7_get_deletes_corrupted_entry_and_returns_absent Json.parse "react"
              (sample_world react_corrupted [] 1700000001000))
    as (w1 & Hg & Hnext & Hgone).
  - exists (mkRow "{ name: react" 1700000000000 86400).
    split; vm_compute; reflexivity.
  - exists w1. split; [exact Hg|]. split.
    + apply Hgone. reflexivity.
    + apply Hnext. reflexivity.
Defined.

(** [react] is written and read back. *)
Lemma C8_witness :
  exists w1 w2 e,
    set Json.stringify "react" react_docs 86400
        (sample_world ∅ [] 1700000001000) = (Returned tt, w1)
    /\ get Json.parse "react" w1 = (Returned (Some e), w2)
    /\ documentation e = react_docs /\ ttl e = 86400
    /\ packageName e = "react" /\ fetchedAt e = Some 1700000001000.
Proof.
  apply (C8_set_then_get_round_trip Json.stringify Json.parse "react" react_docs
           86400 (sample_world ∅ [] 1700000001000));
    vm_compute; reflexivity.
Defined.

(** A store that fails on every call and a package that is not there: the
    error that comes out is the registry's. *)
Lemma C9_witness :
  fetch_error (NotFoundError "Package 'left-pad-xyz-missing' not found.")
  /\ (forall m, NotFoundError "Package 'left-pad-xyz-missing' not found."
                <> CacheError m).
Proof.
  eapply (C9_getDocumentation_never_throws_CacheError
            Json.stringify Json.parse sample_service "left-pad-xyz-missing" false
            (sample_world (react_cached 1700000000000 86400)
               [Some "disk I/O error"; Some "disk I/O error"; Some "disk I/O error"]
               1700000001000)).
  vm_compute. reflexivity.
Defined.

(** A forced fetch of [react] over a valid entry: the registry is asked and
    the row is written anew. *)
Lemma bypass_witness :
  exists w3,
    getDocumentation Json.stringify Json.parse sample_service "react" true
      (sample_world (react_cached 1700000000000 86400) [] 1700000001000)
      = (Returned react_docs, w3)
    /\ requests w3
       = [mkRequest "https://api.npms.io/v2/package/react" "application/json"
                    "mcp-npm_docs-server/0.1.0" 15000]
    /\ table w3 = react_cached 1700000001000 86400.
Proof.
  destruct (bypass_fetches_and_overwrites Json.stringify Json.parse sample_service
              "react"
              (sample_world (react_cached 1700000000000 86400) [] 1700000001000)
              (with_requests
                 [mkRequest "https://api.npms.io/v2/package/react" "application/json"
                            "mcp-npm_docs-server/0.1.0" 15000]
                 (sample_world (react_cached 1700000000000 86400) [] 1700000001000))
              react_docs)
    as (w3 & Hg & Hr & Ht); [vm_compute; reflexivity | reflexivity |].
  exists w3. split; [exact Hg|]. split; [exact Hr|].
  rewrite Ht. vm_compute. reflexivity.
Defined.

Lemma full_invalidation_witness :
  exists w1,
    clearCache None (sample_world (react_cached 1700000000000 86400) [] 1700000001000)
      = (Returned tt, w1)
    /\ table w1 = ∅
    /\ (isCached Json.parse "react" w1).1 = Returned false.
Proof.
  destruct (clearCache_all_then_nothing_is_cached Json.parse
              (sample_world (react_cached 1700000000000 86400) [] 1700000001000))
    as (w1 & Hc & He & Hn); [reflexivity|].
  exists w1. split; [exact Hc|]. split; [exact He|]. apply Hn. exact He.
Defined.

Lemma without_metadata_witness :
  (fetchFromNpmsIO sample_service "react"
     (mkWorld ∅ [] 1700000001000 [] registry_without_metadata [] None)).1
  = Thrown (NotFoundError "Package 'react' not found via npms.io.").
Proof.
  apply (fetch_without_metadata_is_not_found sample_service "react"
           (mkWorld ∅ [] 1700000001000 [] registry_without_metadata [] None)
           (Some (mkResponse None)));
    [reflexivity | exact I].
Defined.



(** * More of the code *)

(** ** What the cache service does to the table *)

Section TableFacts.

Variable JSON_stringify : NpmDocumentation -> string.
Variable JSON_parse : string -> option NpmDocumentation.

Lemma agree_elsewhere_refl (key : string) (tb : gmap string Row) :
  agree_elsewhere key tb tb.
Proof. intros k _. reflexivity. Qed.

Lemma agree_elsewhere_trans (key : string) (tb1 tb2 tb3 : gmap string Row) :
  agree_elsewhere key tb1 tb2 -> agree_elsewhere key tb2 tb3 ->
  agree_elsewhere key tb1 tb3.
Proof. intros H1 H2 k Hk. rewrite (H2 k Hk). apply H1. exact Hk. Qed.

Lemma agree_elsewhere_eq (key : string) (tb tb' : gmap string Row) :
  tb' = tb -> agree_elsewhere key tb tb'.
Proof. intros ->. apply agree_elsewhere_refl. Qed.

Lemma get_agree_elsewhere (key : string) (w : World) :
  truthy key = true ->
  agree_elsewhere key (table w) (table (get JSON_parse key w).2).
Proof.
  intros Hk k Hne. unfold_ops. simpl. rewrite Hk.
  split_cases; try reflexivity; apply lookup_delete_ne; congruence.
Qed.

Lemma isCached_agree_elsewhere (key : string) (w : World) :
  truthy key = true ->
  agree_elsewhere key (table w) (table (isCached JSON_parse key w).2).
Proof.
  intros Hk. pose proof (get_agree_elsewhere key w Hk) as Hg.
  unfold isCached, try_catch, bind, ret.
  destruct (get JSON_parse key w) as [[[e|]|] w1]; simpl in *; auto.
  unfold JsDate.toISOString, lift, Date_now, ret, throw.
  split_cases; auto.
Qed.

Lemma checkCache_agree_elsewhere (key : string) (w : World) :
  truthy key = true ->
  agree_elsewhere key (table w) (table (checkCache JSON_parse key w).2).
Proof.
  intros Hk. pose proof (isCached_agree_elsewhere key w Hk) as Hi.
  unfold checkCache, try_catch, bind, ret.
  destruct (isCached JSON_parse key w) as [[[|]|] w1]; simpl in *; auto.
  pose proof (get_agree_elsewhere key w1 Hk) as Hg.
  destruct (get JSON_parse key w1) as [[[e|]|] w2]; simpl in *;
    eapply agree_elsewhere_trans; eassumption.
Qed.

(** [set] is all or nothing: it returns after it wrote the row, with the
    reading of the clock and the TTL it was given, over whatever was there;
    or it throws a [CacheError] and the table is as it was. *)
Lemma set_all_or_nothing (key : string) (d : NpmDocumentation) (t : Z) (w : World) :
  ((set JSON_stringify key d t w).1 = Returned tt
   /\ table (set JSON_stringify key d t w).2
      = <[key := mkRow (JSON_stringify d) (now w) t]> (table w))
  \/ ((exists m, (set JSON_stringify key d t w).1 = Thrown (CacheError m))
      /\ table (set JSON_stringify key d t w).2 = table w).
Proof.
  unfold_ops. split_cases; eauto.
Qed.

Lemma set_agree_elsewhere (key : string) (d : NpmDocumentation) (t : Z) (w : World) :
  agree_elsewhere key (table w) (table (set JSON_stringify key d t w).2).
Proof.
  intros k Hne. destruct (set_all_or_nothing key d t w) as [[_ ->]|[_ ->]];
    [apply lookup_insert_ne; congruence | reflexivity].
Qed.

(** X7.  [set] is all or nothing, whatever the store does: either it
    returns, and the table then holds under the name the serialized record
    with the reading of the clock and the TTL given, every other entry being
    as it was; or it throws a [CacheError] and the table is unchanged. *)
Theorem set_writes_one_row_or_nothing
    (key : string) (d : NpmDocumentation) (t : Z) (w : World) :
  ((set JSON_stringify key d t w).1 = Returned tt
   /\ table (set JSON_stringify key d t w).2 !! key
      = Some (mkRow (JSON_stringify d) (now w) t)
   /\ agree_elsewhere key (table w) (table (set JSON_stringify key d t w).2))
  \/ ((exists m, (set JSON_stringify key d t w).1 = Thrown (CacheError m))
      /\ table (set JSON_stringify key d t w).2 = table w).
Proof.
  destruct (set_all_or_nothing key d t w) as [[Hr Ht]|H]; [left|right; exact H].
  split; [exact Hr|]. split.
  - rewrite Ht. apply lookup_insert_eq.
  - apply set_agree_elsewhere.
Qed.

(** X8.  [clearCache] with a name that is not empty deletes the entry of
    that name and no other; with no name, or with the empty name (which is
    falsy), it deletes every entry.  This is with the store at work; when
    it throws, the table is unchanged. *)
Theorem clearCache_deletes_one_or_all (which : option string) (w : World) :
  healthy 2 (faults w) = true ->
  (clearCache which w).1 = Returned tt
  /\ table (clearCache which w).2
     = match which with
       | Some (String c s) => delete (String c s) (table w)
       | Some EmptyString | None => ∅
       end.
Proof.
  intros Hh. unfold_ops.
  destruct which as [[|c s]|]; simpl;
    destruct (faults w) as [|[?|] [|[?|] fs]]; simpl in *;
    try discriminate; auto.
Qed.

End TableFacts.

(** ** The orchestrator, whatever the store does *)

Lemma fetch_resolved (this : NpmDocService) (key : string) (w : World)
    (data : option NpmsIOResponse) (md : Metadata) :
  upstream w (request_for this key (npm_package_version w)) = Resolved data ->
  metadata_of data = Some md ->
  truthy_opt (m_name md) = true ->
  fetchFromNpmsIO this key w
  = (Returned (normalize md),
     with_requests (request_for this key (npm_package_version w) :: requests w) w).
Proof.
  unfold metadata_of. intros Hup Hmd Hn. unfold_ops. rewrite Hup, Hmd, Hn.
  reflexivity.
Qed.

Section Orchestrator.

Variable JSON_stringify : NpmDocumentation -> string.
Variable JSON_parse : string -> option NpmDocumentation.
Variable this : NpmDocService.

Lemma isCached_true (key : string) (w w1 : World) :
  isCached JSON_parse key w = (Returned true, w1) ->
  exists e, stored JSON_parse (table w) key = Some e
            /\ JsDate.lt (Some (now w)) (expiryTime e) = true
            /\ w1 = tick (after_calls 2 w).
Proof.
  intros Hi. destruct (get JSON_parse key w) as [[[e|]|err] w0] eqn:Hg.
  - destruct (get_Some_stored JSON_parse key w w0 e Hg) as (Hs & -> & _).
    exists e. split; [exact Hs|].
    destruct (isCached_Some JSON_parse key w _ e Hg) as [H|[_ H]];
      rewrite Hi in H; simpl in H; [|discriminate].
    injection H as H1 H2. auto.
  - rewrite (isCached_None JSON_parse key w w0 Hg) in Hi. discriminate.
  - destruct (get_returns JSON_parse key w) as [r Hr]. rewrite Hg in Hr.
    discriminate.
Qed.

Lemma checkCache_Some (key : string) (w w' : World) (d : NpmDocumentation) :
  checkCache JSON_parse key w = (Returned (Some d), w') ->
  exists e, stored JSON_parse (table w) key = Some e
            /\ JsDate.lt (Some (now w)) (expiryTime e) = true
            /\ d = documentation e
            /\ table w' = table w /\ requests w' = requests w.
Proof.
  unfold checkCache, try_catch, bind, ret.
  destruct (isCached JSON_parse key w) as [[[|]|] w1] eqn:Hi; simpl;
    try discriminate.
  destruct (isCached_true key w w1 Hi) as (e & Hs & Hlt & ->).
  destruct (get JSON_parse key (tick (after_calls 2 w))) as [[[e'|]|] w2] eqn:Hg;
    simpl; try discriminate.
  intros [= <- <-].
  destruct (get_Some_stored JSON_parse key _ _ e' Hg) as (Hs' & -> & _).
  assert (Ht : table (tick (after_calls 2 w)) = table w).
  { unfold tick, after_calls, Date_now. simpl. destruct (later w); reflexivity. }
  rewrite Ht, Hs in Hs'. injection Hs' as <-.
  exists e. repeat split; auto.
  all: unfold tick, after_calls, Date_now; simpl; destruct (later w); reflexivity.
Qed.

(** X9.  A call of [getDocumentation] for a name that is not empty leaves
    the entry of every other name as it was, whatever the flag, the store
    and the registry do. *)
Theorem getDocumentation_touches_only_its_entry
    (key : string) (forceFresh : bool) (w : World) :
  truthy key = true ->
  agree_elsewhere key (table w)
    (table (getDocumentation JSON_stringify JSON_parse this key forceFresh w).2).
Proof.
  intros Hk.
  assert (Hc : agree_elsewhere key (table w)
                 (table (consultCache JSON_parse key forceFresh w).2)).
  { unfold consultCache. destruct forceFresh; simpl;
      [apply agree_elsewhere_refl | apply checkCache_agree_elsewhere; exact Hk]. }
  unfold getDocumentation, bind, try_catch, ret, throw.
  destruct (consultCache JSON_parse key forceFresh w) as [[[d|]|err] w1];
    simpl in *; try exact Hc.
  pose proof (fetch_frame this key w1) as (_ & Ht & _).
  destruct (fetchFromNpmsIO this key w1) as [[docs|err] w2]; simpl in *.
  - pose proof (set_agree_elsewhere JSON_stringify key docs
                  (cacheTtl (config this)) w2) as Hs.
    rewrite Ht in Hs.
    destruct (set JSON_stringify key docs (cacheTtl (config this)) w2)
      as [[[]|] w3]; simpl in *; eapply agree_elsewhere_trans; eassumption.
  - rewrite Ht. exact Hc.
Qed.

(** X10.  The empty name is another matter: a payload stored under it that
    does not deserialize makes [get], and [isCached] with it, delete every
    entry of the table (with the store at work), since [clearCache] takes the
    empty name for none. *)
Theorem get_of_empty_name_can_empty_the_table (w : World) :
  corrupted JSON_parse (table w) EmptyString ->
  healthy 4 (faults w) = true ->
  table (get JSON_parse EmptyString w).2 = ∅
  /\ table (isCached JSON_parse EmptyString w).2 = ∅.
Proof.
  intros Hc Hh. pose proof (get_corrupted JSON_parse EmptyString w Hh Hc) as Hg.
  split; [rewrite Hg; reflexivity|].
  rewrite (isCached_None JSON_parse EmptyString w _ Hg). reflexivity.
Qed.

(** X11.  Availability: when the registry answers the request with
    metadata that has a name, [getDocumentation] returns, whatever the store
    does; what it returns is the normalized answer or, when the cache was
    consulted, the documentation of a stored entry that has not expired. *)
Theorem getDocumentation_returns_when_registry_answers
    (key : string) (forceFresh : bool) (w : World)
    (data : option NpmsIOResponse) (md : Metadata) :
  upstream w (request_for this key (npm_package_version w)) = Resolved data ->
  metadata_of data = Some md ->
  truthy_opt (m_name md) = true ->
  exists d w',
    getDocumentation JSON_stringify JSON_parse this key forceFresh w = (Returned d, w')
    /\ (d = normalize md
        \/ (forceFresh = false
            /\ exists e, stored JSON_parse (table w) key = Some e
                         /\ JsDate.lt (Some (now w)) (expiryTime e) = true
                         /\ d = documentation e)).
Proof.
  intros Hup Hmd Hn.
  pose proof (consultCache_frame JSON_parse key forceFresh w) as (_ & _ & Hu & Hv).
  destruct (consultCache_returns JSON_parse key forceFresh w) as [r Hr].
  unfold getDocumentation, bind, try_catch, ret, throw.
  destruct (consultCache JSON_parse key forceFresh w) as [o w1] eqn:Hc.
  simpl in *. subst o. destruct r as [d|].
  - exists d, w1. split; [reflexivity|]. right.
    unfold consultCache in Hc. destruct forceFresh; simpl in Hc; [discriminate|].
    split; [reflexivity|].
    destruct (checkCache_Some key w w1 d Hc) as (e & Hs & Hlt & Hd & _).
    exists e. auto.
  - rewrite <- Hu, <- Hv in Hup.
    rewrite (fetch_resolved this key w1 data md Hup Hmd Hn).
    destruct (set JSON_stringify key (normalize md) (cacheTtl (config this)) _)
      as [[[]|] w3]; eexists _, _; split; try reflexivity; auto.
Qed.

End Orchestrator.

(** ** Filling, expiry and refreshing *)

Section Lifecycle.

Variable JSON_stringify : NpmDocumentation -> string.
Variable JSON_parse : string -> option NpmDocumentation.
Variable this : NpmDocService.

(** The entry that [get] reads from the row that [set] wrote at [stamp]. *)
Lemma stored_after_insert (tb : gmap string Row) (key : string)
    (d : NpmDocumentation) (stamp t : Z) :
  JSON_parse (JSON_stringify d) = Some d ->
  stored JSON_parse (<[key := mkRow (JSON_stringify d) stamp t]> tb) key
  = Some (mkCacheEntry key d (JsDate.new_Date (Some stamp)) t).
Proof.
  intros Hrt. unfold stored. rewrite lookup_insert_eq. simpl. rewrite Hrt.
  reflexivity.
Qed.

Lemma expiry_representable (key : string) (d : NpmDocumentation) (stamp t : Z) :
  Z.abs stamp <= JsDate.max_time ->
  Z.abs (stamp + t * 1000) <= JsDate.max_time ->
  expiryTime (mkCacheEntry key d (JsDate.new_Date (Some stamp)) t)
  = Some (stamp + t * 1000).
Proof.
  intros H1 H2. unfold expiryTime, JsDate.new_Date, JsDate.getTime. simpl.
  apply Z.leb_le in H1. rewrite H1. simpl. apply Z.leb_le in H2. rewrite H2.
  reflexivity.
Qed.

(** With nothing stored under the name, the store at work and an answer
    of the registry, the call fetches and fills the cache. *)
Lemma getDocumentation_miss_fills (key : string) (w : World)
    (data : option NpmsIOResponse) (md : Metadata) :
  table w !! key = None ->
  healthy 4 (faults w) = true ->
  upstream w (request_for this key (npm_package_version w)) = Resolved data ->
  metadata_of data = Some md ->
  truthy_opt (m_name md) = true ->
  exists w',
    getDocumentation JSON_stringify JSON_parse this key false w
      = (Returned (normalize md), w')
    /\ requests w' = request_for this key (npm_package_version w) :: requests w
    /\ table w'
       = <[key := mkRow (JSON_stringify (normalize md)) (now w)
                        (cacheTtl (config this))]> (table w).
Proof.
  intros Hnone Hh Hup Hmd Hn.
  assert (Hg : get JSON_parse key w = (Returned None, after_calls 2 w)).
  { unfold after_calls. unfold_ops.
    destruct (faults w) as [|[?|] [|[?|] fs]] eqn:Hf; simpl in *;
      try discriminate; rewrite ?Hnone; reflexivity. }
  assert (Hcc : consultCache JSON_parse key false w
                = (Returned None, after_calls 2 w)).
  { unfold consultCache, checkCache, try_catch, bind, ret. simpl.
    rewrite (isCached_None JSON_parse key w _ Hg). reflexivity. }
  unfold getDocumentation, bind, try_catch, ret, throw. rewrite Hcc.
  assert (Hup' : upstream (after_calls 2 w)
                   (request_for this key (npm_package_version (after_calls 2 w)))
                 = Resolved data) by exact Hup.
  rewrite (fetch_resolved this key _ data md Hup' Hmd Hn).
  rewrite (set_ok JSON_stringify key (normalize md) (cacheTtl (config this))).
  - eexists. split; [reflexivity|].
    unfold tick, after_calls, Date_now. simpl. destruct (later w); simpl; auto.
  - simpl. apply (healthy_drop 2 2). exact Hh.
Qed.

(** X12.  Fetched once, then served from the cache: after a call that
    found nothing stored, fetched and wrote (the store at work), every later
    call for the name, made before the time of the write plus the configured
    TTL on a table that is still the one the first call left, returns the
    same documentation and sends no request. *)
Theorem fetched_once_then_served_from_the_cache
    (key : string) (w : World) (data : option NpmsIOResponse) (md : Metadata) :
  table w !! key = None ->
  healthy 4 (faults w) = true ->
  upstream w (request_for this key (npm_package_version w)) = Resolved data ->
  metadata_of data = Some md ->
  truthy_opt (m_name md) = true ->
  JSON_parse (JSON_stringify (normalize md)) = Some (normalize md) ->
  Z.abs (now w) <= JsDate.max_time ->
  Z.abs (now w + cacheTtl (config this) * 1000) <= JsDate.max_time ->
  exists w1,
    getDocumentation JSON_stringify JSON_parse this key false w
      = (Returned (normalize md), w1)
    /\ forall w2,
         table w2 = table w1 ->
         healthy 4 (faults w2) = true ->
         now w2 < now w + cacheTtl (config this) * 1000 ->
         exists w3,
           getDocumentation JSON_stringify JSON_parse this key false w2
             = (Returned (normalize md), w3)
           /\ requests w3 = requests w2.
Proof.
  intros Hnone Hh Hup Hmd Hn Hrt Hr1 Hr2.
  destruct (getDocumentation_miss_fills key w data md Hnone Hh Hup Hmd Hn)
    as (w1 & Hg & _ & Ht).
  exists w1. split; [exact Hg|]. intros w2 Ht2 Hh2 Hnow.
  pose (e := mkCacheEntry key (normalize md) (JsDate.new_Date (Some (now w)))
                          (cacheTtl (config this))).
  assert (Hs : stored JSON_parse (table w2) key = Some e).
  { rewrite Ht2, Ht. apply stored_after_insert. exact Hrt. }
  assert (Hlt : JsDate.lt (Some (now w2)) (expiryTime e) = true).
  { unfold e. rewrite expiry_representable by assumption. simpl.
    apply Z.ltb_lt. exact Hnow. }
  destruct (getDocumentation_hit JSON_stringify JSON_parse this key w2 e Hh2 Hs Hlt)
    as (w3 & Hg3 & _ & Hq).
  exists w3. auto.
Qed.

(** X13.  Expiry is computed when the entry is read and deletes nothing:
    for an entry whose expiry is not after the current time, [isCached]
    answers false and the row stays in the table, whatever the store does. *)
Theorem expired_entry_is_not_cached_and_stays
    (key : string) (w : World) (e : CacheEntry) :
  stored JSON_parse (table w) key = Some e ->
  JsDate.lt (Some (now w)) (expiryTime e) = false ->
  (isCached JSON_parse key w).1 = Returned false
  /\ table (isCached JSON_parse key w).2 = table w.
Proof.
  intros Hs Hlt. split.
  - destruct (get JSON_parse key w) as [[[e'|]|err] w1] eqn:Hg.
    + destruct (get_Some_stored JSON_parse key w w1 e' Hg) as (Hs' & _).
      rewrite Hs in Hs'. injection Hs' as <-.
      destruct (isCached_Some JSON_parse key w w1 e Hg) as [->|[_ ->]];
        [rewrite Hlt|]; reflexivity.
    + rewrite (isCached_None JSON_parse key w w1 Hg). reflexivity.
    + destruct (get_returns JSON_parse key w) as [r Hr]. rewrite Hg in Hr.
      discriminate.
  - apply isCached_table_unchanged. intros (row & Hrow & Hd).
    unfold stored in Hs. rewrite Hrow, Hd in Hs. discriminate.
Qed.

(** X14.  An expired entry is refreshed: with the store at work and an
    answer of the registry, [getDocumentation(name, false)] sends one
    request, returns the normalized answer and writes it over the entry,
    stamped with the reading of the clock that follows the one of the
    validity check. *)
Theorem expired_entry_is_refreshed
    (key : string) (w : World) (e : CacheEntry)
    (data : option NpmsIOResponse) (md : Metadata) :
  stored JSON_parse (table w) key = Some e ->
  JsDate.lt (Some (now w)) (expiryTime e) = false ->
  healthy 4 (faults w) = true ->
  upstream w (request_for this key (npm_package_version w)) = Resolved data ->
  metadata_of data = Some md ->
  truthy_opt (m_name md) = true ->
  exists w',
    getDocumentation JSON_stringify JSON_parse this key false w
      = (Returned (normalize md), w')
    /\ requests w' = request_for this key (npm_package_version w) :: requests w
    /\ table w'
       = <[key := mkRow (JSON_stringify (normalize md)) (now (tick w))
                        (cacheTtl (config this))]> (table w).
Proof.
  intros Hs Hlt Hh Hup Hmd Hn.
  pose proof (get_hit JSON_parse key w e (healthy_le 2 4 _ ltac:(lia) Hh) Hs) as Hg.
  assert (Hi : isCached JSON_parse key w
               = (Returned false, tick (after_calls 2 w))).
  { pose proof (expiryTime_invalid e) as Hinv.
    unfold isCached, try_catch, bind, ret. rewrite Hg. cbv beta iota.
    unfold tick, Date_now, lift, throw, ret.
    change (now (after_calls 2 w)) with (now w).
    destruct (fetchedAt e) as [f|].
    - destruct (expiryTime e) as [x|]; cbn; [cbn in Hlt; rewrite Hlt|];
        reflexivity.
    - rewrite Hinv by reflexivity. cbn. reflexivity. }
  assert (Hcc : consultCache JSON_parse key false w
                = (Returned None, tick (after_calls 2 w))).
  { unfold consultCache, checkCache, try_catch, bind, ret. simpl.
    rewrite Hi. reflexivity. }
  unfold getDocumentation, bind, try_catch, ret, throw. rewrite Hcc.
  assert (Hup' : upstream (tick (after_calls 2 w))
                   (request_for this key
                      (npm_package_version (tick (after_calls 2 w))))
                 = Resolved data).
  { unfold tick, after_calls, Date_now. simpl. destruct (later w); exact Hup. }
  rewrite (fetch_resolved this key _ data md Hup' Hmd Hn).
  rewrite (set_ok JSON_stringify key (normalize md) (cacheTtl (config this))).
  - eexists. split; [reflexivity|].
    unfold tick, after_calls, Date_now. simpl.
    destruct (later w) as [|n1 [|n2 l]] eqn:Hl; simpl; rewrite ?Hl; simpl; auto.
  - unfold tick, after_calls, Date_now. simpl.
    destruct (later w); simpl; apply (healthy_drop 2 2); exact Hh.
Qed.

End Lifecycle.

(** ** The URL of the request *)

Lemma percent_decode_cons_other (c : ascii) (rest : string) :
  N_of_ascii c <> 37%N ->
  percent_decode (String c rest) = String c (percent_decode rest).
Proof.
  intros Hc. apply N.eqb_neq in Hc.
  destruct rest as [|h [|l r]]; simpl; rewrite ?Hc; reflexivity.
Qed.

Lemma unreserved_not_percent (c : ascii) :
  unreserved c = true -> N_of_ascii c <> 37%N.
Proof.
  intros U E. apply (f_equal ascii_of_N) in E. rewrite ascii_N_embedding in E.
  subst c. discriminate U.
Qed.

Lemma percent_decode_encodeURIComponent (s : string) :
  percent_decode (encodeURIComponent s) = s.
Proof.
  induction s as [|c s IH]; [reflexivity|].
  simpl. destruct (unreserved c) eqn:U.
  - rewrite percent_decode_cons_other by (apply unreserved_not_percent; exact U).
    rewrite IH. reflexivity.
  - revert U.
    destruct c as [[] [] [] [] [] [] [] []]; intros U; try discriminate U;
      cbn; rewrite IH; reflexivity.
Qed.

Lemma encodeURIComponent_inj (s1 s2 : string) :
  encodeURIComponent s1 = encodeURIComponent s2 -> s1 = s2.
Proof.
  intros H. apply (f_equal percent_decode) in H.
  rewrite !percent_decode_encodeURIComponent in H. exact H.
Qed.

Lemma encodeURIComponent_url_safe (s : string) :
  all_chars url_safe (encodeURIComponent s) = true.
Proof.
  induction s as [|c s IH]; [reflexivity|].
  simpl. destruct (unreserved c) eqn:U.
  - simpl. rewrite IH. unfold url_safe. rewrite U. reflexivity.
  - revert U.
    destruct c as [[] [] [] [] [] [] [] []]; intros U; try discriminate U;
      cbn; exact IH.
Qed.

Lemma append_cancel (p a b : string) : p +:+ a = p +:+ b -> a = b.
Proof.
  induction p as [|c p IH]; simpl; [auto|]. intros [= H]. apply IH. exact H.
Qed.

(** X15.  The name is the only thing that a request URL varies with, and
    it cannot reach beyond its path segment: what [encodeURIComponent] adds
    after [/package/] holds no slash, question mark, hash, ampersand or
    space, and two names that are requested from the same URL are the same
    name. *)
Theorem request_url_is_injective_and_confined
    (this : NpmDocService) (key : string) (v : option string) :
  url (request_for this key v)
  = npmsApiBaseUrl this +:+ "/package/" +:+ encodeURIComponent key
  /\ all_chars url_safe (encodeURIComponent key) = true
  /\ (forall c, url_safe c = true ->
                c <> "/"%char /\ c <> "?"%char /\ c <> "#"%char
                /\ c <> "&"%char /\ c <> " "%char)
  /\ (forall key' v',
        url (request_for this key v) = url (request_for this key' v') ->
        key = key').
Proof.
  split; [reflexivity|]. split; [apply encodeURIComponent_url_safe|]. split.
  - intros c Hc. repeat split; intros ->; discriminate Hc.
  - intros key' v' H. simpl in H. apply append_cancel in H.
    apply append_cancel in H. apply encodeURIComponent_inj. exact H.
Qed.

(** What [getDocumentation] throws, the fetch threw. *)
Lemma getDocumentation_throws_fetch_error
    (JSON_stringify : NpmDocumentation -> string)
    (JSON_parse : string -> option NpmDocumentation) (this : NpmDocService)
    (key : string) (forceFresh : bool) (w w' : World) (e : Exn) :
  getDocumentation JSON_stringify JSON_parse this key forceFresh w = (Thrown e, w') ->
  fetch_error e.
Proof.
  unfold getDocumentation, bind, try_catch, ret, throw.
  destruct (consultCache_returns JSON_parse key forceFresh w) as [r Hr].
  destruct (consultCache JSON_parse key forceFresh w) as [o w1]. simpl in Hr.
  subst o. destruct r as [d|]; [discriminate|].
  destruct (fetchFromNpmsIO this key w1) as [[docs|err] w2] eqn:Hf.
  - destruct (set JSON_stringify key docs (cacheTtl (config this)) w2)
      as [[[]|] w3]; discriminate.
  - intros [= <- <-]. eapply fetch_throws; eassumption.
Qed.

(** ** The tool *)

Section ToolFacts.

Variable JSON_stringify : NpmDocumentation -> string.
Variable JSON_parse : string -> option NpmDocumentation.
Variable JSON_stringify_pretty : NpmDocumentation -> string.
Variable this : NpmDocService.

(** X16.  What the handler of the tool throws is made from what the fetch
    threw: an [InvalidRequest] with the message of a [NotFoundError], an
    [InternalError] for a [NetworkError] or for an unexpected error.  The
    branch for a [CacheError] is never taken, whatever the store does. *)
Theorem handler_errors_come_from_the_fetch
    (args : NpmDocsToolArgs) (w w' : World) (err : McpError) :
  processNpmDocsRequest JSON_stringify JSON_parse JSON_stringify_pretty this args w
    = (inr err, w') ->
  exists e,
    getDocumentation JSON_stringify JSON_parse this
      (a_packageName args) (a_forceFresh args) w = (Thrown e, w')
    /\ ((exists m, e = NotFoundError m /\ err = mkMcpError InvalidRequest m)
        \/ (exists m, e = NetworkError m
                      /\ err = mkMcpError InternalError
                                 ("Upstream network error: " +:+ m))
        \/ (exists m, e = Error m
                      /\ err = mkMcpError InternalError
                                 ("Failed to get documentation for '"
                                  +:+ a_packageName args +:+ "': " +:+ m))).
Proof.
  unfold processNpmDocsRequest.
  destruct (getDocumentation JSON_stringify JSON_parse this
              (a_packageName args) (a_forceFresh args) w) as [[d|e] w1] eqn:Hg;
    intros [= <- <-].
  exists e. split; [reflexivity|].
  destruct (getDocumentation_throws_fetch_error JSON_stringify JSON_parse this _ _ _ _ _ Hg)
    as [[m ->]|[[m ->]|[m ->]]]; simpl; eauto 6.
Qed.

End ToolFacts.

Section ToolEndToEnd.

Variable JSON_stringify : NpmDocumentation -> string.
Variable JSON_parse : string -> option NpmDocumentation.
Variable JSON_stringify_pretty : NpmDocumentation -> string.
Variable this : NpmDocService.

(** X17.  A package that the registry answers with a 404: the handler
    throws [InvalidRequest] with the message [Package '<name>' not found.],
    whatever the store does, unless the cache was consulted and holds an
    entry for the name that has not expired, whose documentation it then
    returns as text. *)
Theorem handler_of_unknown_package
    (key : string) (forceFresh : bool) (w : World)
    (statusText : string) (rq : bool) (m : string) :
  upstream w (request_for this key (npm_package_version w))
    = Rejected (AxiosError (Some (404, statusText)) rq m) ->
  (processNpmDocsRequest JSON_stringify JSON_parse JSON_stringify_pretty this
     (mkArgs key forceFresh) w).1
  = inr (mkMcpError InvalidRequest ("Package '" +:+ key +:+ "' not found."))
  \/ (forceFresh = false
      /\ exists e, stored JSON_parse (table w) key = Some e
                   /\ JsDate.lt (Some (now w)) (expiryTime e) = true
                   /\ (processNpmDocsRequest JSON_stringify JSON_parse
                         JSON_stringify_pretty this (mkArgs key forceFresh) w).1
                      = inl [mkText "text" (JSON_stringify_pretty (documentation e))]).
Proof.
  intros Hup.
  pose proof (consultCache_frame JSON_parse key forceFresh w) as (_ & _ & Hu & Hv).
  destruct (consultCache_returns JSON_parse key forceFresh w) as [r Hr].
  unfold processNpmDocsRequest, getDocumentation, bind, try_catch, ret, throw.
  simpl.
  destruct (consultCache JSON_parse key forceFresh w) as [o w1] eqn:Hc.
  simpl in *. subst o. destruct r as [d|].
  - right. unfold consultCache in Hc.
    destruct forceFresh; simpl in Hc; [discriminate|]. split; [reflexivity|].
    destruct (checkCache_Some JSON_parse key w w1 d Hc) as (e & Hs & Hlt & -> & _).
    exists e. auto.
  - left. rewrite <- Hu, <- Hv in Hup.
    destruct (fetch_rejected this key w1 _ Hup) as (e & He & Hcls).
    simpl in Hcls. subst e.
    destruct (fetchFromNpmsIO this key w1) as [[docs|err] w2]; simpl in He;
      [discriminate|]. injection He as ->. reflexivity.
Qed.

End ToolEndToEnd.

(** ** Start-up *)

(** X18.  The constructor of the cache service leaves the rows of the
    table as they are.  It throws only when the database cannot be opened
    or the table cannot be made, and then a [CacheError] whose message
    begins with [Cache initialization failed: ]; the failure of the table
    is wrapped twice. *)
Theorem new_CacheService_keeps_rows_and_wraps_failures
    (dbPath_ : string) (w : World) :
  table (new_CacheService dbPath_ w).2 = table w
  /\ (new_CacheService dbPath_ w).1
     = match faults w with
       | Some msg :: _ =>
           Thrown (CacheError ("Cache initialization failed: " +:+ msg))
       | None :: Some msg :: _ =>
           Thrown (CacheError ("Cache initialization failed: "
                               +:+ "Cache table initialization failed: " +:+ msg))
       | _ => Returned tt
       end.
Proof.
  unfold new_CacheService, initializeDatabase, Database_open, db_exec_create_table.
  unfold_ops.
  destruct (faults w) as [|[?|] [|[?|] fs]] eqn:Hf; simpl; rewrite ?Hf; simpl; auto.
Qed.


(** X20.  The configuration manager is built once: from statics whose
    lock is free, [getInstance] returns with the lock free and an instance;
    the instance is made from the defaults and the environment of that
    first call, and from then on [getInstance] changes nothing, whatever
    the environment has become and whatever updates were made. *)
Theorem getInstance_builds_once
    (defaultDbPath : string) (env : Env) (st : ConfigurationManagerStatics) :
  instanceLock st = false ->
  exists st1,
    ConfigurationManager_getInstance defaultDbPath env st = Some st1
    /\ instanceLock st1 = false
    /\ (instance st = None ->
        instance st1
        = Some (loadEnvironmentOverrides env (defaultConfig defaultDbPath)))
    /\ (forall c, instance st = Some c -> st1 = st)
    /\ (forall defaultDbPath' env' updates,
          let st2 := fold_right ConfigurationManager_update st1 updates in
          ConfigurationManager_getInstance defaultDbPath' env' st2 = Some st2).
Proof.
  intros Hl. unfold ConfigurationManager_getInstance.
  destruct (instance st) as [c|] eqn:Hi.
  - exists st. split; [reflexivity|]. split; [exact Hl|]. split; [discriminate|].
    split; [reflexivity|]. intros p' env' updates. simpl.
    assert (H : is_Some (instance (fold_right ConfigurationManager_update st updates))).
    { induction updates as [|u us IH]; simpl; [rewrite Hi; eauto|].
      destruct IH as [x Hx]. rewrite Hx. simpl. eauto. }
    destruct H as [x ->]. reflexivity.
  - rewrite Hl. eexists. split; [reflexivity|]. split; [reflexivity|].
    split; [reflexivity|]. split; [discriminate|]. intros p' env' updates. simpl.
    match goal with
    | |- context [fold_right _ ?s _] =>
        assert (H : is_Some (instance (fold_right ConfigurationManager_update s updates)))
    end.
    { induction updates as [|u us IH]; simpl; [eauto|].
      destruct IH as [x Hx]. rewrite Hx. simpl. eauto. }
    destruct H as [x ->]. reflexivity.
Qed.

(** ** The TTL of the environment *)







(** ** The defensive branch of the cache check *)

(** X3.  When [isCached] answered true and the [get] that follows finds
    nothing (the store failed in between, say), [getDocumentation] goes on
    to the registry: it sends the request, returns what the fetch returns
    and throws what it throws. *)
Theorem inconsistent_cache_falls_through_to_the_fetch
    (JSON_stringify : NpmDocumentation -> string)
    (JSON_parse : string -> option NpmDocumentation) (this : NpmDocService)
    (key : string) (w w1 w2 : World) :
  isCached JSON_parse key w = (Returned true, w1) ->
  get JSON_parse key w1 = (Returned None, w2) ->
  requests (getDocumentation JSON_stringify JSON_parse this key false w).2
  = request_for this key (npm_package_version w) :: requests w
  /\ (forall docs w3,
        fetchFromNpmsIO this key w2 = (Returned docs, w3) ->
        (getDocumentation JSON_stringify JSON_parse this key false w).1
        = Returned docs)
  /\ (forall e w3,
        fetchFromNpmsIO this key w2 = (Thrown e, w3) ->
        getDocumentation JSON_stringify JSON_parse this key false w
        = (Thrown e, w3)).
Proof.
  intros Hi Hg.
  pose proof (checkCache_inconsistency_is_a_miss JSON_parse key w w1 w2 Hi Hg) as Hc.
  pose proof (checkCache_frame JSON_parse key w) as (_ & Hr & _ & Hv).
  rewrite Hc in Hr, Hv. simpl in Hr, Hv.
  pose proof (fetch_frame this key w2) as (Hq & _).
  unfold getDocumentation, consultCache, bind, try_catch, ret, throw. simpl.
  rewrite Hc.
  destruct (fetchFromNpmsIO this key w2) as [[docs|e] w3] eqn:Hf; simpl in Hq.
  - assert (Hs : requests (set JSON_stringify key docs (cacheTtl (config this)) w3).2
                 = requests w3).
    { unfold_ops. split_cases; reflexivity. }
    destruct (set JSON_stringify key docs (cacheTtl (config this)) w3)
      as [[[]|] w4]; simpl in *; rewrite Hs, Hq, Hr, Hv;
      (split; [reflexivity|]); (split; [intros ? ? [= <- <-]; reflexivity|]);
      intros ? ? [=].
  - simpl. rewrite Hq, Hr, Hv. split; [reflexivity|].
    split; [intros ? ? [=]|]. intros ? ? [= <- <-]. reflexivity.
Qed.

(** ** More of the code at work on the sample data *)

(** The store goes away between the two reads of the cache check. *)
Lemma fall_through_witness :
  requests (getDocumentation Json.stringify Json.parse sample_service "react" false
              (sample_world (react_cached 1700000000000 86400)
                            [None; None; Some "database is locked"] 1700000001000)).2
  = [mkRequest "https://api.npms.io/v2/package/react" "application/json"
               "mcp-npm_docs-server/0.1.0" 15000].
Proof.
  eapply proj1.
  eapply (inconsistent_cache_falls_through_to_the_fetch
            Json.stringify Json.parse sample_service "react"
            (sample_world (react_cached 1700000000000 86400)
                          [None; None; Some "database is locked"] 1700000001000)).
  - vm_compute. reflexivity.
  - vm_compute. reflexivity.
Defined.

Lemma clearCache_witness :
  (clearCache (Some "react")
     (sample_world corrupted_under_empty_name [] 1700000001000)).1 = Returned tt
  /\ table (clearCache (Some "react")
              (sample_world corrupted_under_empty_name [] 1700000001000)).2
     = delete "react" corrupted_under_empty_name.
Proof.
  apply (clearCache_deletes_one_or_all (Some "react")
           (sample_world corrupted_under_empty_name [] 1700000001000)).
  reflexivity.
Defined.

Lemma touches_only_its_entry_witness :
  agree_elsewhere "react" corrupted_under_empty_name
    (table (getDocumentation Json.stringify Json.parse sample_service "react" true
              (sample_world corrupted_under_empty_name [] 1700000001000)).2).
Proof.
  apply (getDocumentation_touches_only_its_entry Json.stringify Json.parse
           sample_service "react" true
           (sample_world corrupted_under_empty_name [] 1700000001000)).
  reflexivity.
Defined.

Lemma empty_name_witness :
  table (get Json.parse EmptyString
           (sample_world corrupted_under_empty_name [] 1700000001000)).2 = ∅
  /\ table (isCached Json.parse EmptyString
              (sample_world corrupted_under_empty_name [] 1700000001000)).2 = ∅.
Proof.
  apply (get_of_empty_name_can_empty_the_table Json.parse
           (sample_world corrupted_under_empty_name [] 1700000001000)).
  - exists (mkRow "{ name: react" 1700000000000 86400).
    split; vm_compute; reflexivity.
  - reflexivity.
Defined.

(** A store that fails on every call, and a registry that answers. *)
Lemma availability_witness :
  exists d w',
    getDocumentation Json.stringify Json.parse sample_service "react" false
      (sample_world (react_cached 1700000000000 86400)
         [Some "disk I/O error"; Some "disk I/O error"; Some "disk I/O error"]
         1700000001000)
    = (Returned d, w')
    /\ (d = normalize react_metadata
        \/ (false = false
            /\ exists e,
                 stored Json.parse (react_cached 1700000000000 86400) "react" = Some e
                 /\ JsDate.lt (Some 1700000001000) (expiryTime e) = true
                 /\ d = documentation e)).
Proof.
  apply (getDocumentation_returns_when_registry_answers Json.stringify Json.parse
           sample_service "react" false
           (sample_world (react_cached 1700000000000 86400)
              [Some "disk I/O error"; Some "disk I/O error"; Some "disk I/O error"]
              1700000001000)
           react_response react_metadata).
  - vm_compute. reflexivity.
  - reflexivity.
  - reflexivity.
Defined.

Lemma fetched_once_witness :
  exists w1,
    getDocumentation Json.stringify Json.parse sample_service "react" false
      (sample_world ∅ [] 1700000001000)
    = (Returned (normalize react_metadata), w1)
    /\ forall w2,
         table w2 = table w1 ->
         healthy 4 (faults w2) = true ->
         now w2 < now (sample_world ∅ [] 1700000001000)
                  + cacheTtl (config sample_service) * 1000 ->
         exists w3,
           getDocumentation Json.stringify Json.parse sample_service "react" false w2
           = (Returned (normalize react_metadata), w3)
           /\ requests w3 = requests w2.
Proof.
  apply (fetched_once_then_served_from_the_cache Json.stringify Json.parse
           sample_service "react" (sample_world ∅ [] 1700000001000)
           react_response react_metadata).
  - vm_compute. reflexivity.
  - reflexivity.
  - vm_compute. reflexivity.
  - reflexivity.
  - reflexivity.
  - vm_compute. reflexivity.
  - vm_compute. discriminate.
  - vm_compute. discriminate.
Defined.

(** Fetched ten seconds ago with a TTL of ten seconds. *)
Lemma expired_stays_witness :
  (isCached Json.parse "react"
     (sample_world (react_cached 1700000000000 10) [] 1700000010000)).1
  = Returned false
  /\ table (isCached Json.parse "react"
              (sample_world (react_cached 1700000000000 10) [] 1700000010000)).2
     = react_cached 1700000000000 10.
Proof.
  apply (expired_entry_is_not_cached_and_stays Json.parse "react"
           (sample_world (react_cached 1700000000000 10) [] 1700000010000)
           (mkCacheEntry "react" react_docs (Some 1700000000000) 10)).
  - vm_compute. reflexivity.
  - vm_compute. reflexivity.
Defined.

Lemma expired_refreshed_witness :
  exists w',
    getDocumentation Json.stringify Json.parse sample_service "react" false
      (sample_world (react_cached 1700000000000 10) [] 1700000010000)
    = (Returned (normalize react_metadata), w')
    /\ requests w'
       = [mkRequest "https://api.npms.io/v2/package/react" "application/json"
                    "mcp-npm_docs-server/0.1.0" 15000]
    /\ table w' = react_cached 1700000010000 86400.
Proof.
  destruct (expired_entry_is_refreshed Json.stringify Json.parse sample_service
              "react"
              (sample_world (react_cached 1700000000000 10) [] 1700000010000)
              (mkCacheEntry "react" react_docs (Some 1700000000000) 10)
              react_response react_metadata)
    as (w' & Hg & Hr & Ht).
  - vm_compute. reflexivity.
  - vm_compute. reflexivity.
  - reflexivity.
  - vm_compute. reflexivity.
  - reflexivity.
  - reflexivity.
  - exists w'. split; [exact Hg|]. split; [exact Hr|].
    rewrite Ht. vm_compute. reflexivity.
Defined.

(** The handler on a package that is not there, with a store that fails. *)
Lemma handler_errors_witness :
  exists e err w',
    processNpmDocsRequest Json.stringify Json.parse Json.stringify sample_service
      (mkArgs "left-pad-xyz-missing" false)
      (sample_world ∅ [Some "disk I/O error"] 1700000001000)
    = (inr err, w')
    /\ getDocumentation Json.stringify Json.parse sample_service
         "left-pad-xyz-missing" false
         (sample_world ∅ [Some "disk I/O error"] 1700000001000)
       = (Thrown e, w')
    /\ code err = InvalidRequest.
Proof.
  destruct (processNpmDocsRequest Json.stringify Json.parse Json.stringify
              sample_service (mkArgs "left-pad-xyz-missing" false)
              (sample_world ∅ [Some "disk I/O error"] 1700000001000))
    as [[c|err] w'] eqn:H; [vm_compute in H; discriminate H|].
  destruct (handler_errors_come_from_the_fetch Json.stringify Json.parse
              Json.stringify sample_service _ _ _ _ H) as (e & Hg & Hcls).
  exists e, err, w'. split; [reflexivity|]. split; [exact Hg|].
  vm_compute in H. injection H as <- _. reflexivity.
Defined.

Lemma handler_unknown_package_witness :
  (processNpmDocsRequest Json.stringify Json.parse Json.stringify sample_service
     (mkArgs "left-pad-xyz-missing" true)
     (sample_world (react_cached 1700000000000 86400) [] 1700000001000)).1
  = inr (mkMcpError InvalidRequest "Package 'left-pad-xyz-missing' not found.").
Proof.
  destruct (handler_of_unknown_package Json.stringify Json.parse Json.stringify
              sample_service "left-pad-xyz-missing" true
              (sample_world (react_cached 1700000000000 86400) [] 1700000001000)
              "Not Found" true "Request failed with status code 404")
    as [H|[H _]].
  - vm_compute. reflexivity.
  - exact H.
  - discriminate H.
Defined.

Lemma getInstance_witness :
  exists st1,
    ConfigurationManager_getInstance "/srv/dist/npm-docs-cache.db"
      (mkEnv (Some "3600") None None) (mkStatics None false) = Some st1
    /\ instance st1 = Some (mkConfig 3600 "/srv/dist/npm-docs-cache.db"
                                     "https://registry.npmjs.org")
    /\ ConfigurationManager_getInstance "/tmp/other.db"
         (mkEnv (Some "60") None (Some "https://registry.example.org")) st1
       = Some st1.
Proof.
  destruct (getInstance_builds_once "/srv/dist/npm-docs-cache.db"
              (mkEnv (Some "3600") None None) (mkStatics None false) eq_refl)
    as (st1 & Hg & _ & Hi & _ & Hlater).
  exists st1. split; [exact Hg|]. split.
  - rewrite (Hi eq_refl). vm_compute. reflexivity.
  - exact (Hlater "/tmp/other.db"
             (mkEnv (Some "60") None (Some "https://registry.example.org")) []).
Defined.


(** ** Names that are not there, and names that were invalidated *)

Section Absent.

Variable JSON_stringify : NpmDocumentation -> string.
Variable JSON_parse : string -> option NpmDocumentation.
Variable this : NpmDocService.

(** X22.  A name that has no row: [get] returns absent and [isCached]
    false, without throwing and without any change to the table, whatever
    the store does. *)
Theorem missing_name_is_absent_and_not_cached (key : string) (w : World) :
  table w !! key = None ->
  (get JSON_parse key w).1 = Returned None
  /\ table (get JSON_parse key w).2 = table w
  /\ (isCached JSON_parse key w).1 = Returned false
  /\ table (isCached JSON_parse key w).2 = table w.
Proof.
  intros Hnone.
  assert (Hnc : ~ corrupted JSON_parse (table w) key).
  { intros (row & Hrow & _). congruence. }
  pose proof (get_absent JSON_parse key w Hnone) as Hg.
  split; [exact Hg|]. split; [apply get_table_unchanged; exact Hnc|].
  split; [|apply isCached_table_unchanged; exact Hnc].
  destruct (get JSON_parse key w) as [o w1] eqn:E. simpl in Hg. subst o.
  rewrite (isCached_None JSON_parse key w w1 E). reflexivity.
Qed.

(** X23.  Invalidation makes the next call fetch: after [clearCache] of a
    name that is not empty (the store at work), a call for that name on the
    table it left, with the store at work and an answer of the registry,
    sends a request and returns the normalized answer. *)
Theorem invalidated_name_is_fetched_again
    (key : string) (w : World) :
  truthy key = true ->
  healthy 2 (faults w) = true ->
  exists w1,
    clearCache (Some key) w = (Returned tt, w1)
    /\ table w1 !! key = None
    /\ forall w2 data md,
         table w2 = table w1 ->
         healthy 4 (faults w2) = true ->
         upstream w2 (request_for this key (npm_package_version w2))
           = Resolved data ->
         metadata_of data = Some md ->
         truthy_opt (m_name md) = true ->
         exists w3,
           getDocumentation JSON_stringify JSON_parse this key false w2
             = (Returned (normalize md), w3)
           /\ requests w3
              = request_for this key (npm_package_version w2) :: requests w2.
Proof.
  intros Hk Hh.
  exists (with_table (delete key (table w)) (after_calls 2 w)).
  split; [|split].
  - unfold after_calls. unfold_ops. simpl. rewrite Hk.
    destruct (faults w) as [|[?|] [|[?|] fs]] eqn:Hf; simpl in *;
      try discriminate; reflexivity.
  - simpl. apply lookup_delete_eq.
  - intros w2 data md Ht Hh2 Hup Hmd Hn.
    assert (Hnone : table w2 !! key = None).
    { rewrite Ht. simpl. apply lookup_delete_eq. }
    destruct (getDocumentation_miss_fills JSON_stringify JSON_parse this key w2
                data md Hnone Hh2 Hup Hmd Hn) as (w3 & Hg & Hr & _).
    exists w3. auto.
Qed.

End Absent.

Lemma missing_name_witness :
  (get Json.parse "lodash"
     (sample_world (react_cached 1700000000000 86400)
                   [None; Some "disk I/O error"] 1700000001000)).1
  = Returned None
  /\ table (get Json.parse "lodash"
              (sample_world (react_cached 1700000000000 86400)
                            [None; Some "disk I/O error"] 1700000001000)).2
     = react_cached 1700000000000 86400
  /\ (isCached Json.parse "lodash"
        (sample_world (react_cached 1700000000000 86400)
                      [None; Some "disk I/O error"] 1700000001000)).1
     = Returned false
  /\ table (isCached Json.parse "lodash"
              (sample_world (react_cached 1700000000000 86400)
                            [None; Some "disk I/O error"] 1700000001000)).2
     = react_cached 1700000000000 86400.
Proof.
  apply (missing_name_is_absent_and_not_cached Json.parse "lodash"
           (sample_world (react_cached 1700000000000 86400)
                         [None; Some "disk I/O error"] 1700000001000)).
  vm_compute. reflexivity.
Defined.

Lemma invalidated_witness :
  exists w1,
    clearCache (Some "react")
      (sample_world (react_cached 1700000000000 86400) [] 1700000001000)
    = (Returned tt, w1)
    /\ table w1 !! "react" = None
    /\ exists w3,
         getDocumentation Json.stringify Json.parse sample_service "react" false w1
         = (Returned (normalize react_metadata), w3)
         /\ requests w3
            = request_for sample_service "react" (npm_package_version w1)
              :: requests w1.
Proof.
  destruct (invalidated_name_is_fetched_again Json.stringify Json.parse
              sample_service "react"
              (sample_world (react_cached 1700000000000 86400) [] 1700000001000)
              eq_refl eq_refl) as (w1 & Hc & Hnone & Hnext).
  exists w1. split; [exact Hc|]. split; [exact Hnone|].
  vm_compute in Hc. injection Hc as <-.
  apply (Hnext _ react_response react_metadata).
  - reflexivity.
  - reflexivity.
  - vm_compute. reflexivity.
  - reflexivity.
  - reflexivity.
Defined.
